(** * AutoOrtho: tile cache, DSF prefetch and mount adapter

    A shallow embedding of [autoortho.py] and the properties of its
    tile cache ([TileCacher]), scenery prefetch ([DSF]) and filesystem
    callbacks ([AutoOrtho.getattr], [AutoOrtho.open]).

    Conventions of the embedding.
    - Python [int] is [Z]; wall-clock readings and durations (Python floats)
      are rationals [Q], so rounding of float arithmetic is not modelled.
      A reading of the telemetry is a float that may be NaN: a rational or
      [NaN], compared as Python compares floats.
    - Text is ASCII: a Python [str] is a [string].
    - The file system is a finite map from a path, as spelled, to the
      content of the regular file stored there, and the set of the
      directories, as spelled, in which a file can be created.  A path that
      the program tests, reads or opens is taken not to be a directory.
    - The renderer [getortho.GetOrtho] is external: its three entry points
      and the effect of the other threads during a [Condition.wait] are
      operations of a record the model is parameterised by.
    - A method is a function from the state to an outcome: a value with the
      new state, a raised exception with the state at the raise, or
      divergence when the budget of loop iterations is used up.
    - The calling thread is followed alone: the outside world changes only
      inside a renderer call or a wait. *)

From Stdlib Require Import ZArith QArith Lqa String Ascii List Lia.
From stdpp Require Import base gmap sets list strings pretty.

Close Scope Q_scope.
Open Scope Z_scope.
Open Scope string_scope.

(** ** Python values and string helpers *)

Module Py.

(** The tile coordinates reach the cache either as [int] (from [getattr]
    and [open]) or as the digit strings of a regex group (from
    [DSF.get_dds]). *)
Inductive value :=
| Int (z : Z)
| Str (s : string).

(** [f"{v}"] *)
Definition fmt (v : value) : string :=
  match v with
  | Int z => pretty z
  | Str s => s
  end.

Definition is_digit (c : ascii) : bool :=
  let n := nat_of_ascii c in (48 <=? n)%nat && (n <=? 57)%nat.

Fixpoint digits_value (acc : Z) (cs : list ascii) : option Z :=
  match cs with
  | [] => Some acc
  | c :: cs' =>
      if is_digit c
      then digits_value (10 * acc + (Z.of_nat (nat_of_ascii c) - 48)) cs'
      else None
  end.

(** [int(s)] on a string of decimal digits; anything else is a
    [ValueError] (signs, blanks and underscores never occur: the strings
    come from [\d+] groups). *)
Definition int_of_string (s : string) : option Z :=
  match list_ascii_of_string s with
  | [] => None
  | cs => digits_value 0 cs
  end.

(** The value of [int(v)], when it has one. *)
Definition to_int (v : value) : option Z :=
  match v with
  | Int z => Some z
  | Str s => int_of_string s
  end.

(** [range(hi, lo - 1, -1)]: [hi, hi-1, ..., lo], empty when [lo > hi]. *)
Definition range_down (hi lo : Z) : list Z :=
  map (fun i => hi - Z.of_nat i) (seq 0 (Z.to_nat (hi - lo + 1))).

Definition is_slash (c : ascii) : bool := Ascii.eqb c "/".

(** [p[:p.rfind('/') + 1]] *)
Fixpoint upto_last_slash (cs : list ascii) : list ascii :=
  match cs with
  | [] => []
  | c :: cs' =>
      if existsb is_slash cs' then c :: upto_last_slash cs'
      else if is_slash c then [c] else []
  end.

Fixpoint drop_slashes (cs : list ascii) : list ascii :=
  match cs with
  | [] => []
  | c :: cs' => if is_slash c then drop_slashes cs' else cs
  end.

(** [os.path.dirname] (posixpath): the head up to the last slash, with
    its trailing slashes removed unless it consists of slashes only. *)
Definition dirname (p : string) : string :=
  let head := upto_last_slash (list_ascii_of_string p) in
  if forallb is_slash head then string_of_list_ascii head
  else string_of_list_ascii (rev (drop_slashes (rev head))).

Definition startswith_slash (s : string) : bool :=
  match s with
  | String c _ => is_slash c
  | EmptyString => false
  end.

Definition endswith_slash (s : string) : bool :=
  match rev (list_ascii_of_string s) with
  | c :: _ => is_slash c
  | [] => false
  end.

(** [os.path.join(a, b)] (posixpath) *)
Definition join (a b : string) : string :=
  if startswith_slash b then b
  else if (String.length a =? 0)%nat || endswith_slash a then a ++ b
  else a ++ "/" ++ b.

(** A Python [float] as the program uses the readings of the telemetry,
    in comparisons with constants: a number or NaN.  An infinity compares
    with every constant as a number beyond it does. *)
Inductive float :=
| NaN
| Num (q : Q).

(** [a <= b] and [a < b] on floats: false as soon as one side is NaN. *)
Definition le (a b : float) : bool :=
  match a, b with
  | Num x, Num y => Qle_bool x y
  | _, _ => false
  end.

Definition lt (a b : float) : bool :=
  match a, b with
  | Num x, Num y => negb (Qle_bool y x)
  | _, _ => false
  end.

End Py.

(** ** Regular expressions

    The four patterns of the program are sequences of character classes,
    each with at most one greedy quantifier, and capture groups that wrap
    exactly one quantified class.  [run] is a backtracking matcher for this
    fragment with the priorities of Python's [re]: a quantifier first takes
    as many characters as it can and gives them back one at a time. *)

Module Re.

Inductive quant := One | Opt | Star | Plus.

Record atom := Atom { cls : ascii -> bool; qt : quant; grp : bool }.

Definition code (c : ascii) : nat := nat_of_ascii c.

(** [.] : anything but a newline *)
Definition any (c : ascii) : bool := negb (code c =? 10)%nat.
(** [\d], [\D] *)
Definition digit (c : ascii) : bool := Py.is_digit c.
Definition nondigit (c : ascii) : bool := negb (digit c).
(** [\w], [\W] *)
Definition word (c : ascii) : bool :=
  let n := code c in
  digit c || ((65 <=? n) && (n <=? 90))%nat
          || ((97 <=? n) && (n <=? 122))%nat || (n =? 95)%nat.
Definition nonword (c : ascii) : bool := negb (word c).
(** [\S]: not white space ([str.isspace] on ASCII: 9-13, 28-32) *)
Definition space (c : ascii) : bool :=
  let n := code c in
  ((9 <=? n) && (n <=? 13))%nat || ((28 <=? n) && (n <=? 32))%nat.
Definition nonspace (c : ascii) : bool := negb (space c).
(** a literal character, and a two-element set such as [[-_]] *)
Definition lit (x : ascii) (c : ascii) : bool := Ascii.eqb x c.
Definition oneof (x y : ascii) (c : ascii) : bool :=
  Ascii.eqb x c || Ascii.eqb y c.

Definition chr (x : ascii) : atom := Atom (lit x) One false.

Definition result : Type := list string * list ascii.

(** Greedy repetition: consume while the class matches, then try the
    continuation from the longest run backwards.  [acc] holds the
    consumed characters, last first. *)
Fixpoint greedy (p : ascii -> bool)
    (k : list ascii -> list ascii -> option result)
    (acc s : list ascii) : option result :=
  match s with
  | c :: s' =>
      if p c then
        match greedy p k (c :: acc) s' with
        | Some r => Some r
        | None => k acc s
        end
      else k acc s
  | [] => k acc s
  end.

(** Match the atoms at the start of [s]; on success the captured groups,
    in order, and the unconsumed rest. *)
Fixpoint run (r : list atom) (s : list ascii) : option result :=
  match r with
  | [] => Some ([], s)
  | a :: r' =>
      let k := fun acc rest =>
        match run r' rest with
        | Some (gs, tl) =>
            Some (if grp a then string_of_list_ascii (rev acc) :: gs else gs,
                  tl)
        | None => None
        end in
      match qt a with
      | One =>
          match s with
          | c :: s' => if cls a c then k [c] s' else None
          | [] => None
          end
      | Opt =>
          match s with
          | c :: s' =>
              if cls a c then
                match k [c] s' with
                | Some x => Some x
                | None => k [] s
                end
              else k [] s
          | [] => k [] s
          end
      | Star => greedy (cls a) k [] s
      | Plus =>
          match s with
          | c :: s' => if cls a c then greedy (cls a) k [c] s' else None
          | [] => None
          end
      end
  end.

(** [re.match(r, s)]: anchored at the start only; the groups. *)
Definition match_ (r : list atom) (s : string) : option (list string) :=
  match run r (list_ascii_of_string s) with
  | Some (gs, _) => Some gs
  | None => None
  end.

(** [re.findall(r, s)] for a pattern without groups: the leftmost
    matches, without overlap.  The patterns used never match the empty
    string; a match that consumed nothing is skipped by one character. *)
Fixpoint findall_from (fuel : nat) (r : list atom) (s : list ascii)
    : list string :=
  match fuel with
  | O => []
  | S fuel' =>
      match s with
      | [] => []
      | _ :: s' =>
          match run r s with
          | Some (_, rest) =>
              let n := (length s - length rest)%nat in
              if (n =? 0)%nat then findall_from fuel' r s'
              else string_of_list_ascii (take n s) :: findall_from fuel' r rest
          | None => findall_from fuel' r s'
          end
      end
  end.

Definition findall (r : list atom) (s : string) : list string :=
  let cs := list_ascii_of_string s in findall_from (length cs) r cs.

Definition lits (s : string) : list atom := map chr (list_ascii_of_string s).

(** The tile pattern of [AutoOrtho.__init__] and [DSF.get_dds]: any
    prefix, a slash, then the groups row (digits), col (digits), maptype
    (non-digits, possibly empty) and zoom (digits), the first three parts
    separated by a dash or an underscore, then any one character and
    [dds]. *)
Definition dds_re : list atom :=
  [ Atom any Star false; chr "/";
    Atom digit Plus true; Atom (oneof "-" "_") One false;
    Atom digit Plus true; Atom (oneof "-" "_") One false;
    Atom nondigit Star true; Atom digit Plus true;
    Atom any One false ] ++ lits "dds".

(** The scenery pattern: any prefix, a slash, a plus sign, digits, a
    dash or a plus sign, digits, any one character and [dsf]. *)
Definition dsf_re : list atom :=
  [ Atom any Star false; chr "/"; chr "+";
    Atom digit Plus false; Atom (oneof "-" "+") One false;
    Atom digit Plus false; Atom any One false ] ++ lits "dsf".

(** The terrain reference of [DSF.open]: [terrain], an optional non-word
    character, digits, separator, digits, separator, non-digits, digits,
    word characters and [.ter]. *)
Definition ter_re : list atom :=
  lits "terrain" ++
  [ Atom nonword Opt false;
    Atom digit Plus false; Atom (oneof "-" "_") One false;
    Atom digit Plus false; Atom (oneof "-" "_") One false;
    Atom nondigit Star false; Atom digit Plus false;
    Atom word Star false ] ++ lits ".ter".

(** The texture reference inside a terrain file: as the tile pattern,
    with a prefix free of white space and no groups. *)
Definition dds_ref_re : list atom :=
  [ Atom nonspace Star false; chr "/";
    Atom digit Plus false; Atom (oneof "-" "_") One false;
    Atom digit Plus false; Atom (oneof "-" "_") One false;
    Atom nondigit Star false; Atom digit Plus false;
    Atom any One false ] ++ lits "dds".

End Re.


(** ** The outside world and the renderer *)

Inductive exn :=
| RuntimeError (msg : string)
| ValueError (msg : string)
| OverflowError (msg : string)
| FileNotFoundError (path : string)
| RendererError (msg : string).

(** What a function without effects gives: a value, or an exception. *)
Inductive computed (A : Type) :=
| Value (a : A)
| Error (x : exn).

Arguments Value {A} a.
Arguments Error {A} x.

(** [FlightFollower]: the telemetry published by the follower thread. *)
Record FlightFollower := {
  connected : bool;
  lat : Py.float;
  lon : Py.float;
  alt : Py.float;
  hdg : Py.float;
  spd : Py.float
}.

(** What the calling thread shares with the renderer and the other
    threads: the regular files on disk and the directories, both as
    spelled, [go.active_tiles], the wall clock and the flight state. *)
Record Ext := {
  files : gmap string string;
  dirs : gset string;
  active_tiles : gset string;
  now : Q;
  ff : FlightFollower
}.

(** A call into the renderer returns or raises; both leave a world. *)
Inductive called :=
| Returned (e : Ext)
| Failed (x : exn) (e : Ext).

(** [getortho.GetOrtho] as the cache uses it.  Arguments in the order
    [col row zoom (min_zoom | quick_zoom) maptype outfile priority]; an
    omitted keyword argument is [None].  [wait_effect timeout] is what the
    other threads do to the world while the caller sleeps in
    [tile_condition.wait(timeout)]. *)
Record GetOrtho := {
  get_quick_tile : Z -> Z -> Z -> Z -> string -> string -> Z -> Ext -> called;
  get_tile : Z -> Z -> Z -> string -> string -> Ext -> called;
  get_background_tile :
    Z -> Z -> Z -> option Z -> string -> string -> option Z -> Ext -> called;
  wait_effect : option Q -> Ext -> Ext
}.

(** What a method does that is visible from outside, in order.  A wait is
    recorded with the clock reading at which it begins. *)
Inductive event :=
| CallGetQuick (row col : Py.value) (map_type : string)
               (zoom min_zoom priority : Z)
| QuickTile (col row zoom min_zoom : Z) (maptype outfile : string)
            (priority : Z)
| Tile (col row zoom : Z) (maptype outfile : string)
| BackgroundTile (col row zoom : Z) (quick_zoom : option Z)
                 (maptype outfile : string) (priority : option Z)
| Wait (at_time : Q) (timeout : option Q)
| Lstat (path : string)
| OsOpen (path : string).

(** The state one thread sees: the world, the class attributes
    [TileCacher.tile_times] (a [deque(maxlen=5)], oldest first) and
    [TileCacher.target_zoom], whether this thread owns the lock of
    [go.tile_condition], [AutoOrtho.path_dict], and the trace. *)
Record State := {
  ext : Ext;
  tile_times : list Q;
  target_zoom : Z;
  lock_held : bool;
  path_dict : gmap string string;
  trace : list event
}.

Definition set_ext (e : Ext) (s : State) : State :=
  {| ext := e; tile_times := tile_times s; target_zoom := target_zoom s;
     lock_held := lock_held s; path_dict := path_dict s; trace := trace s |}.

Definition set_files (fs : gmap string string) (e : Ext) : Ext :=
  {| files := fs; dirs := dirs e; active_tiles := active_tiles e;
     now := now e; ff := ff e |}.

Definition set_controller (w : list Q) (tz : Z) (s : State) : State :=
  {| ext := ext s; tile_times := w; target_zoom := tz;
     lock_held := lock_held s; path_dict := path_dict s; trace := trace s |}.

Definition set_lock (b : bool) (s : State) : State :=
  {| ext := ext s; tile_times := tile_times s; target_zoom := target_zoom s;
     lock_held := b; path_dict := path_dict s; trace := trace s |}.

Definition set_path_dict (d : gmap string string) (s : State) : State :=
  {| ext := ext s; tile_times := tile_times s; target_zoom := target_zoom s;
     lock_held := lock_held s; path_dict := d; trace := trace s |}.

Definition emit (ev : event) (s : State) : State :=
  {| ext := ext s; tile_times := tile_times s; target_zoom := target_zoom s;
     lock_held := lock_held s; path_dict := path_dict s;
     trace := trace s ++ [ev] |}.

(** ** Outcomes *)

Inductive outcome (A : Type) :=
| Ok (a : A) (s : State)
| Raise (e : exn) (s : State)
| Diverge.

Arguments Ok {A} a s.
Arguments Raise {A} e s.
Arguments Diverge {A}.

Definition M (A : Type) : Type := State -> outcome A.

Definition ret {A} (a : A) : M A := fun s => Ok a s.

Definition bind {A B} (m : M A) (k : A -> M B) : M B :=
  fun s =>
    match m s with
    | Ok a s' => k a s'
    | Raise e s' => Raise e s'
    | Diverge => Diverge
    end.

Definition raise {A} (e : exn) : M A := fun s => Raise e s.

Declare Scope py_scope.
Delimit Scope py_scope with py.
Notation "'do' x <- m ; k" := (bind m (fun x => k))
  (at level 10, x name, m at level 100, k at level 200) : py_scope.
Notation "'do_' m ; k" := (bind m (fun _ => k))
  (at level 10, m at level 100, k at level 200) : py_scope.
Open Scope py_scope.

Definition get : M State := fun s => Ok s s.
Definition modify (f : State -> State) : M unit := fun s => Ok tt (f s).
Definition log_event (ev : event) : M unit := modify (emit ev).

(** [try: m except Exception: pass] *)
Definition try_except {A} (m : M A) (h : M A) : M A :=
  fun s =>
    match m s with
    | Raise _ s' => h s'
    | r => r
    end.

(** [with self.go.tile_condition: m] *)
Definition with_lock {A} (m : M A) : M A :=
  fun s =>
    let h := lock_held s in
    match m (set_lock true s) with
    | Ok a s' => Ok a (set_lock h s')
    | Raise e s' => Raise e (set_lock h s')
    | Diverge => Diverge
    end.

(** [int(v)] *)
Definition int_ (v : Py.value) : M Z :=
  match Py.to_int v with
  | Some z => ret z
  | None => raise (ValueError "invalid literal for int()")
  end.

(** [time.time()] *)
Definition time : M Q := fun s => Ok (now (ext s)) s.

(** [os.path.exists(f)] and [f in self.go.active_tiles] *)
Definition exists_ (f : string) (e : Ext) : bool :=
  bool_decide (is_Some (files e !! f)).
Definition active (f : string) (e : Ext) : bool :=
  bool_decide (f ∈ active_tiles e).

Definition Qlt_bool (a b : Q) : bool := negb (Qle_bool b a).

(** ** TileCacher *)

Section TileCacher.

Variable go : GetOrtho.

Definition cache_dir : string := ".cache".

(** [os.path.join(self.cache_dir, f"{row}_{col}_{map_type}_{z}.dds")] *)
Definition cache_path (row col : Py.value) (map_type : string) (z : Z)
    : string :=
  Py.join cache_dir
    (Py.fmt row ++ "_" ++ Py.fmt col ++ "_" ++ map_type ++ "_"
       ++ pretty z ++ ".dds").

(** A call into the renderer: the event is recorded, the world replaced,
    a failure raised. *)
Definition call_renderer (ev : event) (f : Ext -> called) : M unit :=
  fun s =>
    match f (ext s) with
    | Returned e => Ok tt (set_ext e (emit ev s))
    | Failed x e => Raise x (set_ext e (emit ev s))
    end.

(** [self.go.tile_condition.wait(timeout)].  As [threading.Condition]
    documents, waiting on a condition whose lock the calling thread has
    not acquired raises [RuntimeError]. *)
Definition cond_wait (timeout : option Q) : M unit :=
  fun s =>
    if lock_held s
    then Ok tt (set_ext (wait_effect go timeout (ext s))
                  (emit (Wait (now (ext s)) timeout) s))
    else Raise (RuntimeError "cannot wait on un-acquired lock") s.

(** The [for z in range(zoom, min_zoom - 1, -1)] loop of [get_quick]
    (lines 199-213): the first level that is not being worked on and
    whose file exists.  Each level is looked at inside its own [with]
    block, so the lock is not held once the loop is left. *)
Fixpoint zoom_walk (e : Ext) (path : Z -> string) (zs : list Z)
    : option string :=
  match zs with
  | [] => None
  | z :: zs' =>
      let cache_file := path z in
      if active cache_file e then zoom_walk e path zs'
      else if exists_ cache_file e then Some cache_file
      else zoom_walk e path zs'
  end.

(** The [while cache_file in self.go.active_tiles] loop of [get_quick]
    (lines 218-223), outside any [with] block.  [Some f]: the [return]
    inside the loop; [None]: the loop ended. *)
Fixpoint wait_while_active (fuel : nat) (cache_file : string)
    : M (option string) :=
  fun s =>
    if active cache_file (ext s) then
      match fuel with
      | O => Diverge
      | S fuel' =>
          match cond_wait None s with
          | Ok _ s1 =>
              if exists_ cache_file (ext s1) then Ok (Some cache_file) s1
              else wait_while_active fuel' cache_file s1
          | Raise e s1 => Raise e s1
          | Diverge => Diverge
          end
      end
    else Ok None s.

(** [deque(maxlen=5).append] *)
Definition deque_append (w : list Q) (t : Q) : list Q :=
  if (5 <=? length w)%nat then tl w ++ [t] else w ++ [t].

(** [sum(self.tile_times) / 5] *)
Definition avg_time (w : list Q) : Q := (fold_left Qplus w 0 / 5)%Q.

(** Lines 236-245: the adaptive controller. *)
Definition adapt (avg : Q) (tz : Z) : Z :=
  if Qlt_bool 2 avg then
    if (12 <=? tz)%Z then tz - 1 else tz
  else if Qle_bool avg (3 # 10) then
    if (tz <? 18)%Z then tz + 1 else tz
  else tz.

Definition record_tile_time (tile_time : Q) : M unit :=
  modify (fun s =>
    let w := deque_append (tile_times s) tile_time in
    set_controller w (adapt (avg_time w) (target_zoom s)) s).

Definition default_min_zoom (zoom min_zoom : Z) : Z :=
  if (min_zoom =? 0)%Z then zoom - 3 else min_zoom.

(** Lines 215-248: what [get_quick] does when the walk found nothing. *)
Definition quick_miss (fuel : nat) (row col : Py.value) (map_type : string)
    (zoom min_zoom priority : Z) : M string :=
  let cache_file := cache_path row col map_type min_zoom in
  do r <- wait_while_active fuel cache_file;
  match r with
  | Some f => ret f
  | None =>
      do start_time <- time;
      do c <- int_ col;
      do r <- int_ row;
      do_ call_renderer
            (QuickTile c r zoom min_zoom map_type cache_file priority)
            (get_quick_tile go c r zoom min_zoom map_type cache_file priority);
      do end_time <- time;
      do_ record_tile_time (end_time - start_time)%Q;
      ret cache_file
  end.

(** [TileCacher.get_quick] *)
Definition get_quick (fuel : nat) (row col : Py.value) (map_type : string)
    (zoom min_zoom priority : Z) : M string :=
  do_ log_event (CallGetQuick row col map_type zoom min_zoom priority);
  let min_zoom := default_min_zoom zoom min_zoom in
  do s <- get;
  match zoom_walk (ext s) (cache_path row col map_type)
          (Py.range_down zoom min_zoom) with
  | Some cache_file => ret cache_file
  | None => quick_miss fuel row col map_type zoom min_zoom priority
  end.

(** [TileCacher.get_target] *)
Definition get_target (fuel : nat) (row col : Py.value) (map_type : string)
    (zoom : Z) : M string :=
  do s <- get;
  let min_zoom := Z.min zoom (Z.max (zoom - 2) (target_zoom s)) in
  do r <- int_ row;
  do c <- int_ col;
  get_quick fuel (Py.Int r) (Py.Int c) map_type zoom min_zoom 1.

(** [TileCacher.get_background] *)
Definition get_background (row col : Py.value) (map_type : string)
    (zoom : Z) : M unit :=
  let cache_file := cache_path row col map_type zoom in
  do s <- get;
  if exists_ cache_file (ext s) then ret tt
  else
    do c <- int_ col;
    do r <- int_ row;
    call_renderer (BackgroundTile c r zoom None map_type cache_file None)
      (get_background_tile go c r zoom None map_type cache_file None).

(** [TileCacher.get_best] *)
Definition get_best (fuel : nat) (row col : Py.value) (map_type : string)
    (zoom : Z) : M string :=
  let cache_file := cache_path row col map_type zoom in
  do s <- get;
  if exists_ cache_file (ext s) then ret cache_file
  else if active cache_file (ext s) then
    do r <- int_ row;
    do c <- int_ col;
    get_quick fuel (Py.Int r) (Py.Int c) map_type zoom (zoom - 2) 1
  else
    do_ try_except
          (do c <- int_ col;
           do r <- int_ row;
           call_renderer (Tile c r zoom map_type cache_file)
             (get_tile go c r zoom map_type cache_file))
          (ret tt);
    ret cache_file.

(** The [while] loop of [get_deadline] (lines 305-310), run with the
    lock held.  The result is [deadline_reached]. *)
Fixpoint deadline_wait (fuel : nat) (cache_file : string) (deadline : Q)
    (start_time : Q) : M bool :=
  fun s =>
    if active cache_file (ext s) || negb (exists_ cache_file (ext s)) then
      match fuel with
      | O => Diverge
      | S fuel' =>
          match cond_wait (Some deadline) s with
          | Ok _ s1 =>
              if Qlt_bool deadline (now (ext s1) - start_time)%Q
              then Ok true s1
              else deadline_wait fuel' cache_file deadline start_time s1
          | Raise e s1 => Raise e s1
          | Diverge => Diverge
          end
      end
    else Ok false s.

(** [TileCacher.get_deadline] *)
Definition get_deadline (fuel : nat) (row col : Py.value)
    (map_type : string) (zoom quick_zoom min_zoom : Z) (deadline : Q)
    (priority : Z) : M string :=
  let cache_file :=
    if (quick_zoom =? 0)%Z then cache_path row col map_type zoom
    else cache_path row col map_type quick_zoom in
  do s <- get;
  if exists_ cache_file (ext s) then ret cache_file
  else
    do c <- int_ col;
    do r <- int_ row;
    do_ call_renderer
          (BackgroundTile c r zoom (Some quick_zoom) map_type cache_file
             (Some priority))
          (get_background_tile go c r zoom (Some quick_zoom) map_type
             cache_file (Some priority));
    do start_time <- time;
    do beat <- with_lock
      (do deadline_reached <- deadline_wait fuel cache_file deadline start_time;
       do s' <- get;
       ret (exists_ cache_file (ext s') && negb deadline_reached));
    if beat then ret cache_file
    else
      let min_zoom := default_min_zoom zoom min_zoom in
      do r <- int_ row;
      do c <- int_ col;
      get_quick fuel (Py.Int r) (Py.Int c) map_type zoom min_zoom 1.

End TileCacher.

(** ** DSF *)

Section DSF.

Variable go : GetOrtho.

(** [open(path).read()] *)
Definition read_file (path : string) : M string :=
  fun s =>
    match files (ext s) !! path with
    | Some content => Ok content s
    | None => Raise (FileNotFoundError path) s
    end.

(** Is [d] a directory: the current one (the empty name), the root, or
    one of [dirs]. *)
Definition isdir (d : string) (e : Ext) : bool :=
  forallb Py.is_slash (list_ascii_of_string d) || bool_decide (d ∈ dirs e).

(** [pathlib.Path(path).touch()] on a path that does not exist: the file
    is created empty; when its directory is missing, the [os.open]
    underneath raises [FileNotFoundError]. *)
Definition touch (path : string) : M unit :=
  fun s =>
    if isdir (Py.dirname path) (ext s)
    then Ok tt (set_ext (set_files (<[path := ""]> (files (ext s))) (ext s)) s)
    else Raise (FileNotFoundError path) s.

(** [os.path.getsize(path)] *)
Definition getsize (path : string) : M nat :=
  do content <- read_file path; ret (String.length content).

(** The body of the [for dds in dds_files] loop of [DSF.get_dds]. *)
Definition get_one_dds (fuel : nat) (extra_fast : bool) (dds : string)
    : M unit :=
  match Re.match_ Re.dds_re dds with
  | Some [row; col; maptype; zoom] =>
      do s <- get;
      do_ (if exists_ dds (ext s) then ret tt else touch dds);
      do size <- getsize dds;
      if (size =? 0)%nat then
        do zoom <- int_ (Py.Str zoom);
        do_ (if extra_fast
             then get_quick go fuel (Py.Str row) (Py.Str col) maptype zoom 0 0
             else get_quick go fuel (Py.Str row) (Py.Str col) maptype zoom 0 1);
        ret tt
      else ret tt
  | _ => ret tt
  end.

(** [DSF.get_dds] *)
Fixpoint get_dds (fuel : nat) (dds_files : list string) (extra_fast : bool)
    : M unit :=
  match dds_files with
  | [] => ret tt
  | dds :: rest =>
      do_ get_one_dds fuel extra_fast dds;
      get_dds fuel rest extra_fast
  end.

(** [range(n)[::k]] for [k > 0]: the multiples of [k] below [n]. *)
Definition range_step (n k : nat) : list nat :=
  map (fun j => (j * k)%nat) (seq 0 ((n + k - 1) / k)).

(** [l[i:j]] *)
Definition slice {A} (l : list A) (i j : nat) : list A :=
  take (j - i) (drop i l).

(** Lines 128-132.  A zero [chunk_size] makes the slice [[::0]] raise
    [ValueError]. *)
Definition chunked_list (dds_list : list string) : M (list (list string)) :=
  let num_chunks := 8%nat in
  let chunk_size := (length dds_list / num_chunks)%nat in
  if (chunk_size =? 0)%nat
  then raise (ValueError "slice step cannot be zero")
  else ret (map (fun i => slice dds_list i (i + chunk_size))
              (range_step (length dds_list) chunk_size)).

(** A worker thread running [get_dds] on its chunk, joined by the
    caller: an exception ends the worker and stays in it.  The workers
    are run one after the other, in the order they are started. *)
Definition run_worker (fuel : nat) (extra_fast : bool)
    (dds_paths : list string) : M unit :=
  fun s =>
    match get_dds fuel dds_paths extra_fast (set_lock false s) with
    | Ok _ s' => Ok tt (set_lock (lock_held s) s')
    | Raise _ s' => Ok tt (set_lock (lock_held s) s')
    | Diverge => Diverge
    end.

Fixpoint run_workers (fuel : nat) (extra_fast : bool)
    (chunks : list (list string)) : M unit :=
  match chunks with
  | [] => ret tt
  | dds_paths :: rest =>
      do_ run_worker fuel extra_fast dds_paths;
      run_workers fuel extra_fast rest
  end.

(** Lines 113-122: the textures referenced by the terrain files. *)
Fixpoint collect_dds (ter_dir : string) (ter_files : list string)
    (dds_full_paths : gset string) : M (gset string) :=
  match ter_files with
  | [] => ret dds_full_paths
  | t :: rest =>
      let ter_path := Py.join ter_dir t in
      do content <- read_file ter_path;
      let dds_files := Re.findall Re.dds_ref_re content in
      collect_dds ter_dir rest
        (list_to_set
           (map (fun dds => Py.join (Py.dirname ter_path) dds) dds_files)
         ∪ dds_full_paths)
  end.

(** Lines 125-145: from the set of textures to the joined workers.
    [list(dds_full_paths)] is [elements]. *)
Definition prefetch (fuel : nat) (dds_full_paths : gset string)
    (extra_fast : bool) : M unit :=
  let dds_list := elements dds_full_paths in
  do chunks <- chunked_list dds_list;
  run_workers fuel extra_fast chunks.

(** [DSF.open] *)
Definition DSF_open (fuel : nat) (path : string) (extra_fast : bool)
    : M unit :=
  do content <- read_file path;
  let ter_files := Re.findall Re.ter_re content in
  let ter_dir := Py.join (Py.join (Py.dirname path) "..") ".." in
  do dds_full_paths <- collect_dds ter_dir ter_files ∅;
  prefetch fuel dds_full_paths extra_fast.

End DSF.

(** ** AutoOrtho: the filesystem callbacks *)

Section AutoOrtho.

Variable go : GetOrtho.

(** [deg2num] (lines 29-34) goes through [math.tan], [math.asinh], a
    float power and the truncation [int], and raises where they do (a
    reading that is NaN, a zoom beyond the range of the floats).  The model
    takes the function as given, with what it raises. *)
Variable deg2num : Py.float -> Py.float -> Z -> computed (Z * Z).

(** [self.root] *)
Variable root : string.

(** [AutoOrtho._full_path] *)
Definition _full_path (partial : string) : string :=
  let partial :=
    match partial with
    | String c rest => if Py.is_slash c then rest else partial
    | EmptyString => partial
    end in
  Py.join root partial.

(** [os.lstat(path)]: of the attributes only [st_size] is modelled. *)
Definition lstat (path : string) : M nat :=
  do_ log_event (Lstat path);
  getsize path.

(** [os.open(path, flags)] without [O_CREAT]: the handle is modelled by
    the path it was opened on. *)
Definition os_open (path : string) : M string :=
  do_ log_event (OsOpen path);
  do_ read_file path;
  ret path.

(** Lines 483-503: [facing_tile].  No test holds for a NaN heading, which
    leaves the flag [False]. *)
Definition heading_faces (hdg : Py.float) (row col x y : Z) : bool :=
  if Py.le (Py.Num 315) hdg || Py.lt hdg (Py.Num 45) then (row <=? y)%Z
  else if Py.le (Py.Num 135) hdg && Py.lt hdg (Py.Num 225) then (row >=? y)%Z
  else if Py.le (Py.Num 45) hdg && Py.lt hdg (Py.Num 135) then (col >=? x)%Z
  else if Py.le (Py.Num 225) hdg && Py.lt hdg (Py.Num 315) then (col <=? x)%Z
  else false.

(** [AutoOrtho._fetch_dds].  [distance <= near_range] compares a float
    square root with an integer; the model compares the squares, which is
    the same test as long as the square root is exact enough (tile numbers
    below 2^26, zoom below 36); its rounding and overflow beyond that are
    not modelled. *)
Definition _fetch_dds (fuel : nat) (row col : Z) (maptype : string)
    (zoom : Z) : M string :=
  let r := Py.Int row in
  let c := Py.Int col in
  do s <- get;
  let f := ff (ext s) in
  if negb (connected f) then get_quick go fuel r c maptype zoom 0 1
  else
    match deg2num (lat f) (lon f) zoom with
    | Error x => raise x
    | Value (x, y) =>
        let near_range := 2 ^ (Z.max 12 zoom - 12) * 4 in
        let near :=
          ((x - col) ^ 2 + (y - row) ^ 2 <=? near_range ^ 2)%Z in
        let facing_tile := heading_faces (hdg f) row col x y in
        let quick := get_quick go fuel r c maptype zoom 0 1 in
        let deadline qz d p :=
          get_deadline go fuel r c maptype zoom qz 0 d p in
        if Py.lt (Py.Num 400) (spd f) && near
           && Py.lt (alt f) (Py.Num 4500) then
          if facing_tile then deadline (zoom - 2) (35 # 100)%Q 5 else quick
        else if Py.lt (Py.Num 200) (spd f) && near
                && Py.lt (alt f) (Py.Num 4500) then
          if facing_tile then deadline (zoom - 1) 1%Q 5 else quick
        else if Py.lt (Py.Num 200) (spd f) then
          if facing_tile then deadline (zoom - 2) (35 # 100)%Q 5 else quick
        else if near then
          if facing_tile then deadline 0 4%Q 2
          else if Py.lt (spd f) (Py.Num 2) then deadline 0 8%Q 5
          else deadline 0 1%Q 5
        else
          if facing_tile then deadline 0 (15 # 10)%Q 5 else quick
    end.

(** The groups of a tile path, with row, col and zoom through [int]. *)
Definition parse_dds (path : string) : option (Z * Z * string * Z) :=
  match Re.match_ Re.dds_re path with
  | Some [row; col; maptype; zoom] =>
      match Py.int_of_string row, Py.int_of_string col,
            Py.int_of_string zoom with
      | Some r, Some c, Some z => Some (r, c, maptype, z)
      | _, _, _ => None
      end
  | _ => None
  end.

(** [AutoOrtho.getattr]: the result is [st_size]. *)
Definition getattr (fuel : nat) (path : string) : M nat :=
  do full_path <-
    match parse_dds path with
    | Some (row, col, maptype, zoom) =>
        if String.eqb maptype "ZL" then ret None
        else
          do full_path <- _fetch_dds fuel row col maptype zoom;
          do_ modify (fun s =>
                set_path_dict (<[path := full_path]> (path_dict s)) s);
          ret (Some full_path)
    | None => ret None
    end;
  let full_path :=
    match full_path with
    | Some p => if (String.length p =? 0)%nat then _full_path path else p
    | None => _full_path path
    end in
  lstat full_path.

(** [AutoOrtho.open]: the result is the handle last assigned to [h]. *)
Definition open (fuel : nat) (path : string) : M string :=
  let full_path := _full_path path in
  do s <- get;
  let f := ff (ext s) in
  let go_fast :=
    Py.lt (Py.Num 400) (spd f) && Py.lt (Py.Num 4500) (alt f) in
  do h <-
    match Re.match_ Re.dsf_re path with
    | Some _ =>
        do_ DSF_open go fuel full_path go_fast;
        do h <- os_open full_path;
        ret (Some h)
    | None => ret None
    end;
  do h <-
    match parse_dds path with
    | Some (row, col, maptype, zoom) =>
        do s <- get;
        do cache_file <-
          match path_dict s !! path with
          | Some cache_file =>
              if (String.length cache_file =? 0)%nat then ret None
              else ret (Some cache_file)
          | None => ret None
          end;
        do cache_file <-
          match cache_file with
          | Some cache_file => ret cache_file
          | None =>
              do cache_file <-
                get_quick go fuel (Py.Int row) (Py.Int col) maptype zoom 0 1;
              do_ modify (fun s =>
                    set_path_dict (<[path := cache_file]> (path_dict s)) s);
              ret cache_file
          end;
        do h <- os_open cache_file;
        ret (Some h)
    | None => ret h
    end;
  match h with
  | Some h => ret h
  | None => os_open full_path
  end.

End AutoOrtho.

(** ** FlightFollower *)

(** What one turn of the loop of [FlightFollower.start] gets from the
    socket: a timeout, or a datagram, given by the map from index to tuple
    that [DecodePacket] makes of it. *)
Inductive received :=
| SocketTimeout
| Packet (values : gmap Z (list Py.float)).

(** After a turn the thread is still in its loop, or it has ended on an
    uncaught [KeyError] or [IndexError]; either way it leaves a state. *)
Inductive follower :=
| Running (f : FlightFollower)
| Died (f : FlightFollower).

(** [values[i][0]] *)
Definition first_value (values : gmap Z (list Py.float)) (i : Z)
    : option Py.float :=
  match values !! i with
  | Some (v :: _) => Some v
  | _ => None
  end.

(** One turn of the [while True] loop (lines 59-87).  [connected] is set as
    soon as a datagram arrives; the five readings are taken into local
    variables first and stored afterwards. *)
Definition follower_turn (r : received) (f : FlightFollower) : follower :=
  match r with
  | SocketTimeout =>
      Running {| connected := false; lat := lat f; lon := lon f;
                 alt := alt f; hdg := hdg f; spd := spd f |}
  | Packet values =>
      let f1 := {| connected := true; lat := lat f; lon := lon f;
                   alt := alt f; hdg := hdg f; spd := spd f |} in
      match first_value values 0, first_value values 1,
            first_value values 3, first_value values 4,
            first_value values 6 with
      | Some la, Some lo, Some al, Some hd, Some sp =>
          Running {| connected := true; lat := la; lon := lo; alt := al;
                     hdg := hd; spd := sp |}
      | _, _, _, _, _ => Died f1
      end
  end.

(** ** Concrete worlds and renderers *)

Module Sample.

Definition no_flight : FlightFollower :=
  {| connected := false; lat := Py.Num (-1); lon := Py.Num (-1);
     alt := Py.Num (-1); hdg := Py.Num (-1); spd := Py.Num (-1) |}.

(** A world with the files [fs]: its directories are those of the files
    and the cache directory, which [TileCacher.__init__] creates. *)
Definition world (fs : gmap string string) (act : gset string) : Ext :=
  {| files := fs; dirs := {[cache_dir]} ∪ set_map Py.dirname (dom fs);
     active_tiles := act; now := 0; ff := no_flight |}.


(** The state of a fresh [TileCacher] over a given world. *)
Definition fresh (e : Ext) : State :=
  {| ext := e; tile_times := []; target_zoom := 16; lock_held := false;
     path_dict := ∅; trace := [] |}.

Definition init : State := fresh (world ∅ ∅).

Definition tick (dt : Q) (e : Ext) : Ext :=
  {| files := files e; dirs := dirs e; active_tiles := active_tiles e;
     now := (now e + dt)%Q; ff := ff e |}.

Definition write (outfile : string) (e : Ext) : Ext :=
  set_files (<[outfile := "DDS"]> (files e)) e.

Definition enqueue (outfile : string) (e : Ext) : Ext :=
  {| files := files e; dirs := dirs e;
     active_tiles := {[outfile]} ∪ active_tiles e;
     now := now e; ff := ff e |}.

Definition timeout_or (d : Q) (timeout : option Q) : Q :=
  match timeout with Some t => t | None => d end.

(** A renderer whose synchronous calls take [dt] seconds and write the
    file, whose background call marks the file active and returns, and
    under which a wait lasts until its timeout with nothing produced. *)
Definition steady (dt : Q) : GetOrtho :=
  {| get_quick_tile := fun _ _ _ _ _ outfile _ e =>
       Returned (write outfile (tick dt e));
     get_tile := fun _ _ _ _ outfile e =>
       Returned (write outfile (tick dt e));
     get_background_tile := fun _ _ _ _ _ outfile _ e =>
       Returned (enqueue outfile e);
     wait_effect := fun timeout e => tick (timeout_or 1 timeout) e |}.

(** The same renderer in a process where some other tile completes at
    time [t0]: a wait in progress at [t0] is woken then, any other wait lasts
    until its timeout. *)
Definition notified (t0 : Q) : GetOrtho :=
  {| get_quick_tile := get_quick_tile (steady 3);
     get_tile := get_tile (steady 3);
     get_background_tile := get_background_tile (steady 3);
     wait_effect := fun timeout e =>
       let d := timeout_or 1 timeout in
       if Qlt_bool (now e) t0 && Qle_bool (t0 - now e) d
       then tick (t0 - now e) e
       else tick d e |}.



(** A renderer whose downloads fail. *)
Definition failing : GetOrtho :=
  {| get_quick_tile := fun _ _ _ _ _ _ _ e =>
       Failed (RendererError "download failed") e;
     get_tile := fun _ _ _ _ _ e =>
       Failed (RendererError "download failed") e;
     get_background_tile := fun _ _ _ _ _ _ _ e =>
       Failed (RendererError "queue full") e;
     wait_effect := fun _ e => e |}.

End Sample.


(** * The vocabulary of the specification *)

(** A level the walk passes over: being worked on, or without a file. *)
Definition blocked (e : Ext) (path : Z -> string) (z : Z) : Prop :=
  active (path z) e = true \/ exists_ (path z) e = false.

(** The state after a fetch that the renderer completed: the world it
    left, the window with the new duration, the adapted target. *)
Definition fetched (ev : event) (e' : Ext) (s : State) : State :=
  let w := deque_append (tile_times s) (now e' - now (ext s))%Q in
  set_controller w (adapt (avg_time w) (target_zoom s))
    (set_ext e' (emit ev s)).

(** The sentence of the specification on the walk, as it is written: the
    highest idle level with a file is returned, and when no level hits a
    fetch is emitted at [min_zoom], its path returned, and the file fetched
    did not exist. *)
Definition walk_as_stated (go : GetOrtho) (fuel : nat) (row col : Py.value)
    (map_type : string) (zoom min_zoom priority : Z) (s : State) : Prop :=
  let mz := default_min_zoom zoom min_zoom in
  let path := cache_path row col map_type in
  (forall z, mz <= z <= zoom ->
     active (path z) (ext s) = false -> exists_ (path z) (ext s) = true ->
     (forall z', z < z' <= zoom -> blocked (ext s) path z') ->
     exists s',
       get_quick go fuel row col map_type zoom min_zoom priority s
       = Ok (path z) s')
  /\
  ((forall z, mz <= z <= zoom -> blocked (ext s) path z) ->
   exists s' c r,
     get_quick go fuel row col map_type zoom min_zoom priority s
     = Ok (path mz) s'
     /\ In (QuickTile c r zoom mz map_type (path mz) priority) (trace s')
     /\ exists_ (path mz) (ext s) = false).

(** [n] synchronous retrievals of [n] different tiles, each a miss. *)
Fixpoint quick_series (go : GetOrtho) (n : nat) : M unit :=
  match n with
  | O => ret tt
  | S k =>
      do_ quick_series go k;
      do_ get_quick go 1 (Py.Int (Z.of_nat n)) (Py.Int 20) "BI" 16 0 1;
      ret tt
  end.

(** The sentence of the specification on the waits of [get_deadline], as
    it is written: every wait is given the remaining deadline as its
    timeout, and the time waited in all is at most the deadline. *)
Definition waits_as_stated (go : GetOrtho) (fuel : nat) (f : string) (D : Q)
    (s : State) : Prop :=
  forall b s',
    deadline_wait go fuel f D (now (ext s)) s = Ok b s' ->
    exists ws,
      trace s' = (trace s ++ ws)%list
      /\ Forall (fun ev => exists t tau,
                   ev = Wait t (Some tau)
                   /\ (tau == D - (t - now (ext s)))%Q) ws
      /\ (now (ext s') - now (ext s) <= D)%Q.

Definition is_background_for (f : string) (ev : event) : bool :=
  match ev with
  | BackgroundTile _ _ _ _ _ outfile _ => String.eqb outfile f
  | _ => false
  end.

(** How many background requests for the file [f] a trace holds. *)
Definition enqueued (f : string) (tr : list event) : nat :=
  length (filter (fun ev => is_background_for f ev = true) tr).

(** [n] calls of [get_background] for the same key, one after the other. *)
Fixpoint repeat_background (go : GetOrtho) (n : nat) (row col : Py.value)
    (map_type : string) (zoom : Z) : M unit :=
  match n with
  | O => ret tt
  | S k =>
      do_ get_background go row col map_type zoom;
      repeat_background go k row col map_type zoom
  end.

(** The sentence of the specification on [get_background], as it is
    written: nothing is scheduled when the artifact exists, and [n]
    repeated calls made while the key is active or present enqueue work for
    it at most once. *)
Definition background_as_stated (go : GetOrtho) (n : nat) (row col : Py.value)
    (map_type : string) (zoom : Z) (s : State) : Prop :=
  let K := cache_path row col map_type zoom in
  (exists_ K (ext s) = true ->
   get_background go row col map_type zoom s = Ok tt s)
  /\
  (active K (ext s) = true \/ exists_ K (ext s) = true ->
   forall s',
     repeat_background go n row col map_type zoom s = Ok tt s' ->
     (enqueued K (trace s') <= enqueued K (trace s) + 1)%nat).





(** Eight empty placeholders of one scenery tile. *)
Definition eight_paths : gset string :=
  {[ "/t/1_1_BI16.dds"; "/t/2_1_BI16.dds"; "/t/3_1_BI16.dds";
     "/t/4_1_BI16.dds"; "/t/5_1_BI16.dds"; "/t/6_1_BI16.dds";
     "/t/7_1_BI16.dds"; "/t/8_1_BI16.dds" ]}.

Definition eight_placeholders : State :=
  Sample.fresh (Sample.world (gset_to_gmap "" eight_paths) ∅).

(** What a method may do to the controller: leave the window and the
    target as they are, or append one duration and adapt the target once. *)
Definition kept (s s' : State) : Prop :=
  tile_times s' = tile_times s /\ target_zoom s' = target_zoom s.

Definition stepped (s s' : State) : Prop :=
  exists t,
    tile_times s' = deque_append (tile_times s) t
    /\ target_zoom s' = adapt (avg_time (tile_times s')) (target_zoom s).

Definition moved (s s' : State) : Prop := kept s s' \/ stepped s s'.

(** [post m R]: whenever [m] returns or raises, the state it started in
    and the state it leaves are related by [R]. *)
Definition post {A} (m : M A) (R : State -> State -> Prop) : Prop :=
  forall s,
    match m s with
    | Ok _ s' => R s s'
    | Raise _ s' => R s s'
    | Diverge => True
    end.

(** The window is a [deque(maxlen=5)] and the target stays where the
    guards of the controller keep it. *)
Definition controller_ok (s : State) : Prop :=
  (length (tile_times s) <= 5)%nat /\ 11 <= target_zoom s <= 18.

(** The lock of [tile_condition] is as the method found it. *)
Definition lock_kept (s s' : State) : Prop := lock_held s' = lock_held s.



(** The groups a match adds for one atom. *)
Definition captured (a : Re.atom) (u : list ascii) (gs : list string)
    : list string :=
  if Re.grp a then string_of_list_ascii u :: gs else gs.

(** * Properties *)

(** ** Arithmetic of the model *)

Lemma Qlt_bool_iff (a b : Q) : Qlt_bool a b = true <-> (a < b)%Q.
Proof.
  unfold Qlt_bool. rewrite negb_true_iff.
  split; intros H.
  - apply Qnot_le_lt. intros Hle. apply Qle_bool_iff in Hle. congruence.
  - destruct (Qle_bool b a) eqn:E; [|reflexivity].
    apply Qle_bool_iff in E. exfalso. exact (Qlt_not_le _ _ H E).
Qed.

Lemma Qlt_bool_false_iff (a b : Q) : Qlt_bool a b = false <-> (b <= a)%Q.
Proof.
  unfold Qlt_bool. rewrite negb_false_iff. apply Qle_bool_iff.
Qed.

Lemma range_down_nil (hi lo : Z) : hi < lo -> Py.range_down hi lo = [].
Proof.
  intros H. unfold Py.range_down.
  replace (Z.to_nat (hi - lo + 1)) with O by lia. reflexivity.
Qed.

Lemma range_down_cons (hi lo : Z) :
  lo <= hi -> Py.range_down hi lo = hi :: Py.range_down (hi - 1) lo.
Proof.
  intros H. unfold Py.range_down.
  replace (Z.to_nat (hi - lo + 1)) with (S (Z.to_nat (hi - 1 - lo + 1))) by lia.
  cbn [seq map]. f_equal; [lia|].
  rewrite <- seq_shift, map_map.
  apply map_ext. intros i. lia.
Qed.

Lemma elem_of_range_down (hi lo z : Z) :
  In z (Py.range_down hi lo) <-> lo <= z <= hi.
Proof.
  unfold Py.range_down. rewrite in_map_iff. split.
  - intros (i & <- & Hi). apply in_seq in Hi. lia.
  - intros H. exists (Z.to_nat (hi - z)). split; [lia|].
    apply in_seq. lia.
Qed.

Lemma default_min_zoom_twice (zoom min_zoom : Z) :
  default_min_zoom zoom (default_min_zoom zoom min_zoom)
  = default_min_zoom zoom min_zoom.
Proof.
  unfold default_min_zoom.
  destruct (min_zoom =? 0)%Z eqn:E1.
  - now destruct (zoom - 3 =? 0)%Z eqn:E2.
  - now rewrite E1.
Qed.

(** ** The adaptive controller *)

Section Controller.

Lemma adapt_slow (avg : Q) (tz : Z) :
  (2 < avg)%Q -> adapt avg tz = if (12 <=? tz)%Z then tz - 1 else tz.
Proof.
  intros H. unfold adapt. apply Qlt_bool_iff in H. now rewrite H.
Qed.

Lemma adapt_fast (avg : Q) (tz : Z) :
  (avg <= 3 # 10)%Q -> adapt avg tz = if (tz <? 18)%Z then tz + 1 else tz.
Proof.
  intros H. unfold adapt.
  assert (Hn : Qlt_bool 2 avg = false).
  { apply Qlt_bool_false_iff. lra. }
  rewrite Hn. apply Qle_bool_iff in H. now rewrite H.
Qed.

Lemma adapt_between (avg : Q) (tz : Z) :
  (3 # 10 < avg)%Q -> (avg <= 2)%Q -> adapt avg tz = tz.
Proof.
  intros H1 H2. unfold adapt.
  assert (Hn : Qlt_bool 2 avg = false) by now apply Qlt_bool_false_iff.
  rewrite Hn.
  destruct (Qle_bool avg (3 # 10)) eqn:E; [|reflexivity].
  apply Qle_bool_iff in E. lra.
Qed.

Lemma adapt_cases (avg : Q) (tz : Z) :
  adapt avg tz = tz - 1 \/ adapt avg tz = tz \/ adapt avg tz = tz + 1.
Proof.
  unfold adapt.
  destruct (Qlt_bool 2 avg), (Qle_bool avg (3 # 10)),
    (12 <=? tz)%Z, (tz <? 18)%Z; auto.
Qed.

(** The controller decrements exactly when the average exceeds 2 and
    the target is at least 12 (not 13). *)
Lemma adapt_decrements_iff (avg : Q) (tz : Z) :
  adapt avg tz = tz - 1 <-> (2 < avg)%Q /\ 12 <= tz.
Proof.
  unfold adapt. destruct (Qlt_bool 2 avg) eqn:E.
  - apply Qlt_bool_iff in E. destruct (12 <=? tz)%Z eqn:E2.
    + apply Z.leb_le in E2. tauto.
    + apply Z.leb_gt in E2. split; [lia | intros [_ ?]; lia].
  - apply Qlt_bool_false_iff in E.
    destruct (Qle_bool avg (3 # 10)), (tz <? 18)%Z;
      (split; [lia | intros [? _]; lra]).
Qed.

Lemma adapt_increments_iff (avg : Q) (tz : Z) :
  adapt avg tz = tz + 1 <-> (avg <= 3 # 10)%Q /\ tz < 18.
Proof.
  unfold adapt. destruct (Qlt_bool 2 avg) eqn:E.
  - apply Qlt_bool_iff in E.
    destruct (12 <=? tz)%Z; (split; [lia | intros [? _]; lra]).
  - destruct (Qle_bool avg (3 # 10)) eqn:E1.
    + apply Qle_bool_iff in E1. destruct (tz <? 18)%Z eqn:E2.
      * apply Z.ltb_lt in E2. tauto.
      * apply Z.ltb_ge in E2. split; [lia | intros [_ ?]; lia].
    + split; [lia|]. intros [H _]. apply Qle_bool_iff in H. congruence.
Qed.

(** What the guards do keep: the target never leaves [11, 18]. *)
Lemma adapt_range (avg : Q) (tz : Z) :
  11 <= tz <= 18 -> 11 <= adapt avg tz <= 18.
Proof.
  intros H. unfold adapt.
  destruct (Qlt_bool 2 avg), (Qle_bool avg (3 # 10)),
    (12 <=? tz)%Z eqn:E1, (tz <? 18)%Z eqn:E2;
    try apply Z.leb_le in E1; try apply Z.ltb_lt in E2; lia.
Qed.

Lemma deque_append_length (w : list Q) (t : Q) :
  (length w <= 5)%nat -> (length (deque_append w t) <= 5)%nat.
Proof.
  intros H. unfold deque_append.
  destruct (5 <=? length w)%nat eqn:E.
  - apply Nat.leb_le in E. destruct w; simpl in *; [lia|].
    rewrite length_app. simpl. lia.
  - apply Nat.leb_gt in E. rewrite length_app. simpl. lia.
Qed.

End Controller.

(** ** The zoom walk *)

Section Walk.

Variable e : Ext.
Variable path : Z -> string.

Lemma zoom_walk_skip (z : Z) (zs : list Z) :
  blocked e path z -> zoom_walk e path (z :: zs) = zoom_walk e path zs.
Proof.
  intros [H|H]; cbn [zoom_walk]; rewrite H; [reflexivity|].
  now destruct (active (path z) e).
Qed.

Lemma zoom_walk_take (z : Z) (zs : list Z) :
  active (path z) e = false -> exists_ (path z) e = true ->
  zoom_walk e path (z :: zs) = Some (path z).
Proof. intros H1 H2. cbn [zoom_walk]. now rewrite H1, H2. Qed.

Lemma zoom_walk_none (zs : list Z) :
  (forall z, In z zs -> blocked e path z) -> zoom_walk e path zs = None.
Proof.
  induction zs as [|z zs IH]; intros H; [reflexivity|].
  rewrite zoom_walk_skip by (apply H; now left).
  apply IH. intros z' Hz'. apply H. now right.
Qed.

Lemma zoom_walk_none_inv (zs : list Z) :
  zoom_walk e path zs = None -> forall z, In z zs -> blocked e path z.
Proof.
  induction zs as [|z zs IH]; intros H z' Hz'; [destruct Hz'|].
  cbn [zoom_walk] in H. unfold blocked.
  destruct (active (path z) e) eqn:Ea.
  - destruct Hz' as [<-|Hz']; [now left | now apply IH].
  - destruct (exists_ (path z) e) eqn:Ee; [discriminate|].
    destruct Hz' as [<-|Hz']; [now right | now apply IH].
Qed.

(** A hit is a level of the walk that is idle and has its file. *)
Lemma zoom_walk_some_inv (zs : list Z) (f : string) :
  zoom_walk e path zs = Some f ->
  exists z, In z zs /\ f = path z /\
            active f e = false /\ exists_ f e = true.
Proof.
  induction zs as [|z zs IH]; intros H; [discriminate|].
  cbn [zoom_walk] in H.
  destruct (active (path z) e) eqn:Ea.
  - destruct (IH H) as (z' & ? & ? & ?). exists z'. split; [now right|auto].
  - destruct (exists_ (path z) e) eqn:Ee.
    + inversion H; subst. exists z. split; [now left|auto].
    + destruct (IH H) as (z' & ? & ? & ?). exists z'. split; [now right|auto].
Qed.

(** Walking [hi, hi-1, ..., lo], the first level that is idle and has a
    file is the one returned. *)
Lemma zoom_walk_highest (lo z : Z) (n : nat) :
  forall hi, Z.to_nat (hi - z) = n -> lo <= z <= hi ->
  active (path z) e = false -> exists_ (path z) e = true ->
  (forall z', z < z' <= hi -> blocked e path z') ->
  zoom_walk e path (Py.range_down hi lo) = Some (path z).
Proof.
  induction n as [|n IH]; intros hi Hn Hz Ha He Hb;
    rewrite range_down_cons by lia.
  - assert (hi = z) as -> by lia. now apply zoom_walk_take.
  - rewrite zoom_walk_skip by (apply Hb; lia).
    apply IH; try lia; auto. intros z' Hz'. apply Hb. lia.
Qed.

End Walk.

(** ** get_quick *)

Section GetQuick.

Variable go : GetOrtho.

Lemma wait_while_active_idle (fuel : nat) (f : string) (s : State) :
  active f (ext s) = false -> wait_while_active go fuel f s = Ok None s.
Proof. intros H. destruct fuel; cbn [wait_while_active]; now rewrite H. Qed.

(** The wait of line 220 is made without the lock: it raises. *)
Lemma wait_while_active_unlocked (fuel : nat) (f : string) (s : State) :
  active f (ext s) = true -> lock_held s = false ->
  wait_while_active go (S fuel) f s
  = Raise (RuntimeError "cannot wait on un-acquired lock") s.
Proof.
  intros Ha Hl. cbn [wait_while_active]. rewrite Ha.
  unfold cond_wait. now rewrite Hl.
Qed.

Lemma get_quick_hit fuel row col map_type zoom min_zoom priority s f :
  zoom_walk (ext s) (cache_path row col map_type)
    (Py.range_down zoom (default_min_zoom zoom min_zoom)) = Some f ->
  get_quick go fuel row col map_type zoom min_zoom priority s
  = Ok f (emit (CallGetQuick row col map_type zoom min_zoom priority) s).
Proof.
  intros H. unfold get_quick, bind, log_event, modify, get, ret.
  cbn [ext emit]. now rewrite H.
Qed.

Lemma get_quick_miss fuel row col map_type zoom min_zoom priority s :
  zoom_walk (ext s) (cache_path row col map_type)
    (Py.range_down zoom (default_min_zoom zoom min_zoom)) = None ->
  get_quick go fuel row col map_type zoom min_zoom priority s
  = quick_miss go fuel row col map_type zoom
      (default_min_zoom zoom min_zoom) priority
      (emit (CallGetQuick row col map_type zoom min_zoom priority) s).
Proof.
  intros H. unfold get_quick, bind, log_event, modify, get, ret.
  cbn [ext emit]. now rewrite H.
Qed.

Lemma quick_miss_fetch fuel row col map_type zoom mz priority s c r e' :
  active (cache_path row col map_type mz) (ext s) = false ->
  Py.to_int col = Some c -> Py.to_int row = Some r ->
  get_quick_tile go c r zoom mz map_type (cache_path row col map_type mz)
    priority (ext s) = Returned e' ->
  quick_miss go fuel row col map_type zoom mz priority s
  = Ok (cache_path row col map_type mz)
      (fetched (QuickTile c r zoom mz map_type
                  (cache_path row col map_type mz) priority) e' s).
Proof.
  intros Ha Hc Hr Hq. unfold quick_miss, bind.
  rewrite wait_while_active_idle by assumption.
  unfold time, int_. rewrite Hc, Hr. unfold ret, call_renderer.
  now rewrite Hq.
Qed.

Lemma quick_miss_failure fuel row col map_type zoom mz priority s c r x e' :
  active (cache_path row col map_type mz) (ext s) = false ->
  Py.to_int col = Some c -> Py.to_int row = Some r ->
  get_quick_tile go c r zoom mz map_type (cache_path row col map_type mz)
    priority (ext s) = Failed x e' ->
  quick_miss go fuel row col map_type zoom mz priority s
  = Raise x (set_ext e'
               (emit (QuickTile c r zoom mz map_type
                        (cache_path row col map_type mz) priority) s)).
Proof.
  intros Ha Hc Hr Hq. unfold quick_miss, bind.
  rewrite wait_while_active_idle by assumption.
  unfold time, int_. rewrite Hc, Hr. unfold ret, call_renderer.
  now rewrite Hq.
Qed.

Lemma quick_miss_unlocked fuel row col map_type zoom mz priority s :
  active (cache_path row col map_type mz) (ext s) = true ->
  lock_held s = false ->
  quick_miss go (S fuel) row col map_type zoom mz priority s
  = Raise (RuntimeError "cannot wait on un-acquired lock") s.
Proof.
  intros Ha Hl. unfold quick_miss, bind.
  now rewrite wait_while_active_unlocked.
Qed.

End GetQuick.

(** C10. Whenever [get_quick] returns through a hit of its zoom walk, the
    renderer is not called (the world is the one the call started in and
    the trace gains only the entry into [get_quick]), and the tile time
    window and the target zoom are the ones before the call. *)
Theorem get_quick_hit_frame
    (go : GetOrtho) (fuel : nat) (row col : Py.value) (map_type : string)
    (zoom min_zoom priority : Z) (s : State) (f : string) :
  zoom_walk (ext s) (cache_path row col map_type)
    (Py.range_down zoom (default_min_zoom zoom min_zoom)) = Some f ->
  exists s',
    get_quick go fuel row col map_type zoom min_zoom priority s = Ok f s'
    /\ ext s' = ext s
    /\ tile_times s' = tile_times s
    /\ target_zoom s' = target_zoom s
    /\ trace s'
       = (trace s ++ [CallGetQuick row col map_type zoom min_zoom priority])%list.
Proof.
  intros H. eexists. split; [now apply get_quick_hit|].
  repeat split.
Qed.

Lemma get_quick_hit_frame_witness :
  let s := Sample.fresh
             (Sample.world {[".cache/30_20_BI_15.dds" := "DDS"]} ∅) in
  zoom_walk (ext s) (cache_path (Py.Int 30) (Py.Int 20) "BI")
    (Py.range_down 16 (default_min_zoom 16 0))
  = Some ".cache/30_20_BI_15.dds"
  /\ exists s',
       get_quick (Sample.steady 3) 4 (Py.Int 30) (Py.Int 20) "BI" 16 0 1 s
       = Ok ".cache/30_20_BI_15.dds" s'
       /\ ext s' = ext s
       /\ tile_times s' = tile_times s
       /\ target_zoom s' = target_zoom s
       /\ trace s'
          = (trace s ++ [CallGetQuick (Py.Int 30) (Py.Int 20) "BI" 16 0 1])%list.
Proof.
  split; [vm_compute; reflexivity|].
  apply (get_quick_hit_frame (Sample.steady 3) 4 (Py.Int 30) (Py.Int 20) "BI"
           16 0 1).
  vm_compute; reflexivity.
Defined.

Lemma exists_empty (f : string) (act : gset string) :
  exists_ f (Sample.world ∅ act) = false.
Proof.
  unfold exists_. cbn [Sample.world files]. rewrite lookup_empty.
  apply bool_decide_eq_false. intros [x Hx]. discriminate.
Qed.

(** C6, as stated, fails twice.  With the [min_zoom] file being worked on
    and no file on disk, [get_quick(30, 20, "BI", 16)] reaches the wait of
    line 220 and returns no path.  With [zoom = 10], [min_zoom = 12] and
    the level-12 file on disk, the walk is empty and the fetch is emitted
    onto the existing file. *)
Lemma get_quick_walk_counterexample :
  ~ walk_as_stated (Sample.steady 3) 4 (Py.Int 30) (Py.Int 20) "BI" 16 0 1
      (Sample.fresh (Sample.world ∅ {[".cache/30_20_BI_13.dds"]}))
  /\
  ~ walk_as_stated (Sample.steady 3) 4 (Py.Int 30) (Py.Int 20) "BI" 10 12 1
      (Sample.fresh (Sample.world {[".cache/30_20_BI_12.dds" := "DDS"]} ∅)).
Proof.
  split; intros [_ H].
  - destruct H as (s' & c & r & Heq & _).
    + intros z _. right. apply exists_empty.
    + vm_compute in Heq. discriminate.
  - destruct H as (s' & c & r & _ & _ & Hex).
    + intros z Hz. cbv [default_min_zoom] in Hz. simpl in Hz. lia.
    + vm_compute in Hex. discriminate.
Qed.

(** C6, amended.  [get_quick] walks the levels [zoom, ..., min_zoom]
    ([min_zoom] defaulting to [zoom - 3]), passes over every level that is
    in the active set or has no file, and returns the path of the highest
    level that is idle and has a file, calling nothing.  When no level hits,
    the [min_zoom] key is not in the active set and the renderer returns,
    it emits one fetch at [min_zoom] and returns the [min_zoom] path; when
    moreover [min_zoom <= zoom], the file fetched did not exist. *)
Theorem get_quick_walk
    (go : GetOrtho) (fuel : nat) (row col : Py.value) (map_type : string)
    (zoom min_zoom priority : Z) (s : State) :
  let mz := default_min_zoom zoom min_zoom in
  let path := cache_path row col map_type in
  let call := CallGetQuick row col map_type zoom min_zoom priority in
  (forall z, mz <= z <= zoom ->
     active (path z) (ext s) = false -> exists_ (path z) (ext s) = true ->
     (forall z', z < z' <= zoom -> blocked (ext s) path z') ->
     get_quick go fuel row col map_type zoom min_zoom priority s
     = Ok (path z) (emit call s))
  /\
  (forall c r e',
     (forall z, mz <= z <= zoom -> blocked (ext s) path z) ->
     active (path mz) (ext s) = false ->
     Py.to_int col = Some c -> Py.to_int row = Some r ->
     get_quick_tile go c r zoom mz map_type (path mz) priority (ext s)
     = Returned e' ->
     get_quick go fuel row col map_type zoom min_zoom priority s
     = Ok (path mz)
         (fetched (QuickTile c r zoom mz map_type (path mz) priority) e'
            (emit call s))
     /\ (mz <= zoom -> exists_ (path mz) (ext s) = false)).
Proof.
  intros mz path call. split.
  - intros z Hz Ha He Hb. apply get_quick_hit.
    now apply (zoom_walk_highest _ _ mz z (Z.to_nat (zoom - z))).
  - intros c r e' Hb Ha Hc Hr Hq. split.
    + rewrite get_quick_miss.
      * now apply quick_miss_fetch.
      * apply zoom_walk_none. intros z Hz. apply Hb.
        now apply elem_of_range_down.
    + intros Hle. destruct (Hb mz) as [H|H]; [subst mz; lia | | exact H].
      fold mz path in Ha. congruence.
Qed.

Lemma get_quick_walk_witness :
  (let s := Sample.fresh
              (Sample.world {[".cache/30_20_BI_16.dds" := "DDS";
                              ".cache/30_20_BI_15.dds" := "DDS";
                              ".cache/30_20_BI_14.dds" := "DDS"]}
                 {[".cache/30_20_BI_16.dds"]}) in
   get_quick (Sample.steady 3) 4 (Py.Int 30) (Py.Int 20) "BI" 16 0 1 s
   = Ok ".cache/30_20_BI_15.dds"
       (emit (CallGetQuick (Py.Int 30) (Py.Int 20) "BI" 16 0 1) s))
  /\
  (let s := Sample.init in
   let f := ".cache/30_20_BI_13.dds" in
   get_quick (Sample.steady 3) 4 (Py.Int 30) (Py.Int 20) "BI" 16 0 1 s
   = Ok f
       (fetched (QuickTile 20 30 16 13 "BI" f 1)
          (Sample.write f (Sample.tick 3 (ext s)))
          (emit (CallGetQuick (Py.Int 30) (Py.Int 20) "BI" 16 0 1) s))
   /\ (13 <= 16 -> exists_ f (ext s) = false)).
Proof.
  split.
  - apply (proj1 (get_quick_walk (Sample.steady 3) 4 (Py.Int 30) (Py.Int 20)
                    "BI" 16 0 1 _) 15).
    + cbv [default_min_zoom]. simpl. lia.
    + vm_compute; reflexivity.
    + vm_compute; reflexivity.
    + intros z' Hz'. assert (z' = 16) as -> by lia.
      left. vm_compute; reflexivity.
  - apply (proj2 (get_quick_walk (Sample.steady 3) 4 (Py.Int 30) (Py.Int 20)
                    "BI" 16 0 1 Sample.init) 20 30).
    + intros z _. right. apply exists_empty.
    + vm_compute; reflexivity.
    + reflexivity.
    + reflexivity.
    + reflexivity.
Defined.

(** ** Exceptions *)

(** [get_best] does swallow what the renderer raises: when the key is not
    being worked on it returns the path, whatever [get_tile] does. *)
Lemma get_best_swallows
    (go : GetOrtho) (fuel : nat) (row col : Py.value) (map_type : string)
    (zoom : Z) (s : State) :
  active (cache_path row col map_type zoom) (ext s) = false ->
  exists s', get_best go fuel row col map_type zoom s
             = Ok (cache_path row col map_type zoom) s'.
Proof.
  intros Ha. unfold get_best, bind, get.
  destruct (exists_ _ (ext s)); [eexists; reflexivity|].
  rewrite Ha. unfold try_except, bind, int_.
  destruct (Py.to_int col) as [c|]; [|eexists; reflexivity].
  cbn [ret]. destruct (Py.to_int row) as [r|]; [|eexists; reflexivity].
  cbn [ret]. unfold call_renderer.
  destruct (get_tile go c r zoom map_type _ (ext s)); eexists; reflexivity.
Qed.

(** C1 (defect in the code).  [get_quick] has no handler around the
    renderer: with a renderer whose download fails,
    [get_quick(30, 20, "BI", 16)] on an empty cache raises the renderer's
    exception to its caller, and so do [get_target], [get_background] and
    [get_deadline]; with the [min_zoom] key in the active set, it raises
    the [RuntimeError] of a wait made without the lock.  Only [get_best]
    logs and swallows. *)
Theorem get_quick_raises :
  (exists s',
     get_quick Sample.failing 4 (Py.Int 30) (Py.Int 20) "BI" 16 0 1 Sample.init
     = Raise (RendererError "download failed") s')
  /\ (exists s',
        get_target Sample.failing 4 (Py.Int 30) (Py.Int 20) "BI" 16 Sample.init
        = Raise (RendererError "download failed") s')
  /\ (exists s',
        get_background Sample.failing (Py.Int 30) (Py.Int 20) "BI" 16 Sample.init
        = Raise (RendererError "queue full") s')
  /\ (exists s',
        get_deadline Sample.failing 4 (Py.Int 30) (Py.Int 20) "BI" 16 0 0 1 5
          Sample.init
        = Raise (RendererError "queue full") s')
  /\ (exists s',
        get_quick (Sample.steady 3) 4 (Py.Int 30) (Py.Int 20) "BI" 16 0 1
          (Sample.fresh (Sample.world ∅ {[".cache/30_20_BI_13.dds"]}))
        = Raise (RuntimeError "cannot wait on un-acquired lock") s')
  /\ (exists s',
        get_best Sample.failing 4 (Py.Int 30) (Py.Int 20) "BI" 16 Sample.init
        = Ok ".cache/30_20_BI_16.dds" s').
Proof.
  repeat split; eexists; vm_compute; reflexivity.
Qed.

(** ** Target zoom *)

(** C2 (defect in the code).  The target zoom starts at 16, and the guard
    of line 237, [target_zoom >= 12], lets it be decremented at 12: after
    eight misses served in 3 s each it is 11, below the stated range. *)
Theorem target_zoom_reaches_11 :
  target_zoom Sample.init = 16
  /\ exists s',
       quick_series (Sample.steady 3) 8 Sample.init = Ok tt s'
       /\ target_zoom s' = 11.
Proof.
  split; [reflexivity|].
  eexists. split; vm_compute; reflexivity.
Qed.

(** C3 (defect in the code).  With the target zoom at 12 and a window of
    3 s retrievals, one more miss served in 3 s leaves a moving average
    above 2 s and the target zoom decremented to 11, although it was not
    at least 13. *)
Theorem controller_decrements_at_12 :
  let s := set_controller [3; 3; 3; 3; 3]%Q 12 Sample.init in
  let f := ".cache/30_20_BI_13.dds" in
  exists s',
    get_quick (Sample.steady 3) 1 (Py.Int 30) (Py.Int 20) "BI" 16 0 1 s
    = Ok f s'
    /\ In (QuickTile 20 30 16 13 "BI" f 1) (trace s')
    /\ (2 < avg_time (tile_times s'))%Q
    /\ target_zoom s = 12
    /\ target_zoom s' = 11.
Proof.
  eexists. split; [vm_compute; reflexivity|].
  split; [right; left; reflexivity|].
  split; [vm_compute; reflexivity|].
  split; reflexivity.
Qed.

(** ** get_deadline *)

Section Deadline.

Variable go : GetOrtho.


(** Every wait of the loop is given the whole deadline as its timeout and
    begins within the deadline; the clock at the exit is at most one
    timeout later. *)
Lemma deadline_wait_trace (fuel : nat) (f : string) (D start : Q) :
  (0 <= D)%Q ->
  (forall tau e, (now (wait_effect go (Some tau) e) <= now e + tau)%Q) ->
  forall s b s',
    (now (ext s) - start <= D)%Q ->
    deadline_wait go fuel f D start s = Ok b s' ->
    exists ws,
      trace s' = (trace s ++ ws)%list
      /\ Forall (fun ev => exists t,
                   ev = Wait t (Some D) /\ (t - start <= D)%Q) ws
      /\ (now (ext s') - start <= 2 * D)%Q.
Proof.
  intros HD Hw.
  induction fuel as [|fuel IH]; intros s b s' Hs H; cbn [deadline_wait] in H.
  - destruct (active f (ext s) || negb (exists_ f (ext s))); [discriminate|].
    inversion H; subst. exists []. rewrite app_nil_r.
    repeat split; [constructor | clear - HD Hs; lra].
  - destruct (active f (ext s) || negb (exists_ f (ext s))).
    + unfold cond_wait in H. destruct (lock_held s); [|discriminate].
      cbn [ext set_ext] in H.
      pose proof (Hw D (ext s)) as Hstep.
      destruct (Qlt_bool D (now (wait_effect go (Some D) (ext s)) - start))
        eqn:Eq.
      * inversion H; subst. exists [Wait (now (ext s)) (Some D)].
        cbn [trace set_ext emit ext]. split; [reflexivity|].
        split; [|clear - HD Hs Hstep; lra].
        constructor; [|constructor]. exists (now (ext s)). auto.
      * apply Qlt_bool_false_iff in Eq.
        destruct (IH _ b s' (Eq : (now (ext (set_ext _ _)) - start <= D)%Q) H)
          as (ws & Ht & Hf & Hn).
        cbn [trace set_ext emit ext] in *.
        exists (Wait (now (ext s)) (Some D) :: ws).
        split; [rewrite Ht, <- app_assoc; reflexivity|].
        split; [|exact Hn].
        constructor; [|exact Hf]. exists (now (ext s)). auto.
    + inversion H; subst. exists []. rewrite app_nil_r.
      repeat split; [constructor | clear - HD Hs; lra].
Qed.


End Deadline.

Lemma bind_ok {A B} (m : M A) (k : A -> M B) (s : State) (b : B)
    (s' : State) :
  bind m k s = Ok b s' -> exists a s1, m s = Ok a s1 /\ k a s1 = Ok b s'.
Proof.
  unfold bind. destruct (m s) as [a s1|e s1|]; try discriminate. eauto.
Qed.





Lemma notified_honours_timeout (t0 tau : Q) (e : Ext) :
  (now (wait_effect (Sample.notified t0) (Some tau) e) <= now e + tau)%Q.
Proof.
  cbn [wait_effect Sample.notified Sample.timeout_or].
  destruct (Qlt_bool (now e) t0 && Qle_bool (t0 - now e) tau) eqn:E;
    cbn [Sample.tick now].
  - apply andb_true_iff in E. destruct E as [_ E].
    apply Qle_bool_iff in E. lra.
  - lra.
Qed.

(** C5, as stated, fails.  With a deadline of 1 s and another tile
    completing 0.9 s into the wait, the waiter is woken at 0.9 s, finds its
    tile still active and waits again with a timeout of 1 s, not of the
    remaining 0.1 s: it has waited 1.9 s when it leaves the loop. *)
Lemma deadline_waits_counterexample :
  ~ waits_as_stated (Sample.notified (9 # 10)) 4 ".cache/30_20_BI_16.dds" 1
      (set_lock true
         (Sample.fresh (Sample.world ∅ {[".cache/30_20_BI_16.dds"]}))).
Proof.
  intros H.
  edestruct H as (ws & _ & _ & Hle); [vm_compute; reflexivity|].
  vm_compute in Hle. apply Hle. reflexivity.
Qed.

(** C5, amended.  In the wait loop of [get_deadline] with deadline [D],
    every individual wait on the tile condition is given the whole
    deadline [D] as its timeout and begins no later than [D] after the
    start; so, when no wait outlasts its timeout, the time spent waiting on
    the condition never exceeds [2 * D]. *)
Theorem deadline_waits_bounded
    (go : GetOrtho) (fuel : nat) (f : string) (D : Q) (s : State)
    (b : bool) (s' : State) :
  (0 <= D)%Q ->
  (forall tau e, (now (wait_effect go (Some tau) e) <= now e + tau)%Q) ->
  deadline_wait go fuel f D (now (ext s)) s = Ok b s' ->
  exists ws,
    trace s' = (trace s ++ ws)%list
    /\ Forall (fun ev => exists t,
                 ev = Wait t (Some D) /\ (t - now (ext s) <= D)%Q) ws
    /\ (now (ext s') - now (ext s) <= 2 * D)%Q.
Proof.
  intros HD Hw H.
  apply (deadline_wait_trace go fuel f D (now (ext s)) HD Hw s b s');
    [clear - HD; lra | exact H].
Qed.

Lemma deadline_waits_bounded_witness :
  let s := set_lock true
             (Sample.fresh (Sample.world ∅ {[".cache/30_20_BI_16.dds"]})) in
  (0 <= 1)%Q
  /\ (forall tau e,
        (now (wait_effect (Sample.notified (9 # 10)) (Some tau) e)
         <= now e + tau)%Q)
  /\ exists s',
       deadline_wait (Sample.notified (9 # 10)) 4 ".cache/30_20_BI_16.dds" 1
         (now (ext s)) s = Ok true s'
       /\ exists ws,
            trace s' = (trace s ++ ws)%list
            /\ Forall (fun ev => exists t,
                         ev = Wait t (Some 1%Q)
                         /\ (t - now (ext s) <= 1)%Q) ws
            /\ (now (ext s') - now (ext s) <= 2 * 1)%Q.
Proof.
  intros s.
  split; [vm_compute; discriminate|].
  split; [apply notified_honours_timeout|].
  eexists. split; [vm_compute; reflexivity|].
  apply (deadline_waits_bounded (Sample.notified (9 # 10)) 4
           ".cache/30_20_BI_16.dds" 1 s true).
  - vm_compute; discriminate.
  - apply notified_honours_timeout.
  - vm_compute; reflexivity.
Defined.

(** ** get_background *)

(** C7, as stated, fails.  With the key [(30, 20, "BI", 16)] in the active
    set and no file yet, two calls of [get_background] place two requests
    with the renderer: the cache does not look at the active set. *)
Lemma get_background_counterexample :
  ~ background_as_stated (Sample.steady 3) 2 (Py.Int 30) (Py.Int 20) "BI" 16
      (Sample.fresh (Sample.world ∅ {[".cache/30_20_BI_16.dds"]})).
Proof.
  intros [_ H].
  assert (Hrun : exists s',
             repeat_background (Sample.steady 3) 2 (Py.Int 30) (Py.Int 20)
               "BI" 16
               (Sample.fresh (Sample.world ∅ {[".cache/30_20_BI_16.dds"]}))
             = Ok tt s'
             /\ enqueued ".cache/30_20_BI_16.dds" (trace s') = 2%nat).
  { eexists. split; vm_compute; reflexivity. }
  destruct Hrun as (s' & Hrun & Hn).
  assert (Ha : active (cache_path (Py.Int 30) (Py.Int 20) "BI" 16)
                 (ext (Sample.fresh
                         (Sample.world ∅ {[".cache/30_20_BI_16.dds"]})))
               = true) by (vm_compute; reflexivity).
  specialize (H (or_introl Ha) s' Hrun).
  change (cache_path (Py.Int 30) (Py.Int 20) "BI" 16)
    with ".cache/30_20_BI_16.dds" in H.
  rewrite Hn in H. vm_compute in H. lia.
Qed.

Lemma get_background_present
    (go : GetOrtho) (row col : Py.value) (map_type : string) (zoom : Z)
    (s : State) :
  exists_ (cache_path row col map_type zoom) (ext s) = true ->
  get_background go row col map_type zoom s = Ok tt s.
Proof. intros H. unfold get_background, bind, get. now rewrite H. Qed.

(** C7, amended.  [get_background] does not wait.  If the artifact for the
    key exists it returns without scheduling any work and leaves the state
    as it was, so any number of repeated calls made while the key is
    present enqueue nothing.  While the artifact is absent, every call
    places one [get_background_tile] request for the key with the renderer,
    whether or not the key is in the active set. *)
Theorem get_background_effect
    (go : GetOrtho) (row col : Py.value) (map_type : string) (zoom : Z)
    (s : State) :
  let K := cache_path row col map_type zoom in
  (exists_ K (ext s) = true ->
   forall n, repeat_background go n row col map_type zoom s = Ok tt s)
  /\
  (forall c r e',
     exists_ K (ext s) = false ->
     Py.to_int col = Some c -> Py.to_int row = Some r ->
     get_background_tile go c r zoom None map_type K None (ext s)
     = Returned e' ->
     get_background go row col map_type zoom s
     = Ok tt (set_ext e' (emit (BackgroundTile c r zoom None map_type K None) s))).
Proof.
  intros K. split.
  - intros He n. induction n as [|n IH]; [reflexivity|].
    cbn [repeat_background]. unfold bind.
    now rewrite get_background_present.
  - intros c r e' He Hc Hr Hb. unfold get_background, bind, get.
    fold K. rewrite He. unfold int_. rewrite Hc, Hr. cbn [ret].
    unfold call_renderer. now rewrite Hb.
Qed.

Lemma get_background_effect_witness :
  (let s := Sample.fresh
              (Sample.world {[".cache/30_20_BI_16.dds" := "DDS"]} ∅) in
   exists_ ".cache/30_20_BI_16.dds" (ext s) = true
   /\ repeat_background (Sample.steady 3) 3 (Py.Int 30) (Py.Int 20) "BI" 16 s
      = Ok tt s)
  /\
  (let s := Sample.fresh (Sample.world ∅ {[".cache/30_20_BI_16.dds"]}) in
   let K := ".cache/30_20_BI_16.dds" in
   active K (ext s) = true
   /\ get_background (Sample.steady 3) (Py.Int 30) (Py.Int 20) "BI" 16 s
      = Ok tt (set_ext (Sample.enqueue K (ext s))
                 (emit (BackgroundTile 20 30 16 None "BI" K None) s))).
Proof.
  split.
  - split; [vm_compute; reflexivity|].
    apply (proj1 (get_background_effect (Sample.steady 3) (Py.Int 30)
                    (Py.Int 20) "BI" 16 _)).
    vm_compute; reflexivity.
  - split; [vm_compute; reflexivity|].
    apply (proj2 (get_background_effect (Sample.steady 3) (Py.Int 30)
                    (Py.Int 20) "BI" 16 _) 20 30).
    + vm_compute; reflexivity.
    + reflexivity.
    + reflexivity.
    + reflexivity.
Defined.

(** ** The ZL sentinel *)

(** [getattr] on a path whose maptype is [ZL] is the [lstat] of the
    underlying file, and nothing else. *)
Lemma getattr_ZL_passthrough
    (go : GetOrtho)
    (deg2num : Py.float -> Py.float -> Z -> computed (Z * Z))
    (root : string)
    (fuel : nat) (path : string) (row col zoom : Z) (s : State) :
  parse_dds path = Some (row, col, "ZL", zoom) ->
  getattr go deg2num root fuel path s = lstat (_full_path root path) s.
Proof.
  intros H. unfold getattr, bind. rewrite H. reflexivity.
Qed.

(** C8 (defect in the code).  [getattr] passes a [ZL] path through, but
    [open] has no such test: for ["/textures/10_20_ZL16.dds"], whose
    maptype parses as [ZL] and which [getattr] never enters in the path map,
    [open] calls [get_quick], which emits a fetch, and opens the cache file
    instead of the underlying one. *)
Theorem open_fetches_ZL_tile :
  let path := "/textures/10_20_ZL16.dds" in
  let under := "/scenery/textures/10_20_ZL16.dds" in
  let s := Sample.fresh (Sample.world {[under := ""]} ∅) in
  parse_dds path = Some (10, 20, "ZL", 16)
  /\ getattr (Sample.steady 3) (fun _ _ _ => Value (0, 0)) "/scenery" 4 path s
     = Ok 0%nat (emit (Lstat under) s)
  /\ exists s',
       open (Sample.steady 3) "/scenery" 4 path s
       = Ok ".cache/10_20_ZL_13.dds" s'
       /\ trace s'
          = [CallGetQuick (Py.Int 10) (Py.Int 20) "ZL" 16 0 1;
             QuickTile 20 10 16 13 "ZL" ".cache/10_20_ZL_13.dds" 1;
             OsOpen ".cache/10_20_ZL_13.dds"]
       /\ path_dict s' !! path = Some ".cache/10_20_ZL_13.dds".
Proof.
  split; [vm_compute; reflexivity|].
  split; [vm_compute; reflexivity|].
  eexists. split; [vm_compute; reflexivity|].
  split; vm_compute; reflexivity.
Qed.

(** ** DSF prefetch *)

Section Chunks.

Context {A : Type}.

Lemma slice_shift (l : list A) (j k : nat) :
  slice l (S j * k) (S j * k + k) = slice (drop k l) (j * k) (j * k + k).
Proof.
  unfold slice. rewrite drop_drop.
  replace (S j * k + k - S j * k)%nat with k by lia.
  replace (j * k + k - j * k)%nat with k by lia.
  reflexivity.
Qed.


End Chunks.


(** The slip in the chunking: nine paths give nine chunks, and fewer than
    eight give a zero slice step, hence a [ValueError]. *)
Lemma chunked_list_nine (s : State) :
  exists chunks,
    chunked_list ["a"; "b"; "c"; "d"; "e"; "f"; "g"; "h"; "i"] s
    = Ok chunks s
    /\ length chunks = 9%nat.
Proof. eexists. split; reflexivity. Qed.

Lemma chunked_list_short (dds_list : list string) (s : State) :
  (length dds_list < 8)%nat ->
  chunked_list dds_list s = Raise (ValueError "slice step cannot be zero") s.
Proof.
  intros H. unfold chunked_list.
  rewrite Nat.div_small by exact H. reflexivity.
Qed.


(** ** What the cache operations do to the controller *)

Section ControllerFrame.

Variable go : GetOrtho.

Lemma kept_refl (s : State) : kept s s.
Proof. split; reflexivity. Qed.

Lemma kept_trans (s s1 s' : State) : kept s s1 -> kept s1 s' -> kept s s'.
Proof. intros [H1 H2] [H3 H4]. split; congruence. Qed.

Lemma kept_moved (s s1 s' : State) : kept s s1 -> moved s1 s' -> moved s s'.
Proof.
  intros Hk [Hm|(t & Ht & Hz)].
  - left. eapply kept_trans; eauto.
  - right. destruct Hk as [H1 H2]. exists t. rewrite <- H1, <- H2. auto.
Qed.

Lemma post_ret {A} (a : A) : post (ret a) kept.
Proof. intros s. apply kept_refl. Qed.

Lemma post_raise {A} (e : exn) : post (@raise A e) kept.
Proof. intros s. apply kept_refl. Qed.

Lemma post_weaken {A} (m : M A) : post m kept -> post m moved.
Proof.
  intros H s. specialize (H s). destruct (m s); auto; now left.
Qed.

Lemma post_bind_kept {A B} (m : M A) (k : A -> M B) :
  post m kept -> (forall a, post (k a) kept) -> post (bind m k) kept.
Proof.
  intros Hm Hk s. unfold bind. specialize (Hm s).
  destruct (m s) as [a s1|e s1|]; auto.
  specialize (Hk a s1). destruct (k a s1); auto; eapply kept_trans; eauto.
Qed.

Lemma post_bind_moved {A B} (m : M A) (k : A -> M B) :
  post m kept -> (forall a, post (k a) moved) -> post (bind m k) moved.
Proof.
  intros Hm Hk s. unfold bind. specialize (Hm s).
  destruct (m s) as [a s1|e s1|]; auto; [|now left].
  specialize (Hk a s1). destruct (k a s1); auto; eapply kept_moved; eauto.
Qed.

Lemma post_get : post get kept.
Proof. intros s. apply kept_refl. Qed.

Lemma post_time : post time kept.
Proof. intros s. apply kept_refl. Qed.

Lemma post_log_event (ev : event) : post (log_event ev) kept.
Proof. intros s. split; reflexivity. Qed.

Lemma post_int_ (v : Py.value) : post (int_ v) kept.
Proof.
  unfold int_. destruct (Py.to_int v); [apply post_ret | apply post_raise].
Qed.

Lemma post_call_renderer (ev : event) (f : Ext -> called) :
  post (call_renderer ev f) kept.
Proof.
  intros s. unfold call_renderer. destruct (f (ext s)); split; reflexivity.
Qed.

Lemma post_cond_wait (timeout : option Q) : post (cond_wait go timeout) kept.
Proof.
  intros s. unfold cond_wait. destruct (lock_held s); split; reflexivity.
Qed.

Lemma post_with_lock {A} (m : M A) (R : State -> State -> Prop) :
  (forall s s', R (set_lock true s) s' -> R s (set_lock (lock_held s) s')) ->
  post m R -> post (with_lock m) R.
Proof.
  intros HR Hm s. unfold with_lock. specialize (Hm (set_lock true s)).
  destruct (m (set_lock true s)); auto.
Qed.

Lemma post_try_except {A} (m h : M A) :
  post m kept -> post h kept -> post (try_except m h) kept.
Proof.
  intros Hm Hh s. unfold try_except. specialize (Hm s).
  destruct (m s) as [a s1|e s1|]; auto.
  specialize (Hh s1). destruct (h s1); auto; eapply kept_trans; eauto.
Qed.

Lemma post_wait_while_active (fuel : nat) (f : string) :
  post (wait_while_active go fuel f) kept.
Proof.
  induction fuel as [|fuel IH]; intros s; cbn [wait_while_active];
    destruct (active f (ext s)); try apply kept_refl; [exact I|].
  pose proof (post_cond_wait None s) as Hw.
  destruct (cond_wait go None s) as [u s1|e s1|]; auto.
  destruct (exists_ f (ext s1)); [exact Hw|].
  specialize (IH s1).
  destruct (wait_while_active go fuel f s1); auto; eapply kept_trans; eauto.
Qed.

Lemma post_deadline_wait (fuel : nat) (f : string) (D start : Q) :
  post (deadline_wait go fuel f D start) kept.
Proof.
  induction fuel as [|fuel IH]; intros s; cbn [deadline_wait];
    destruct (active f (ext s) || negb (exists_ f (ext s)));
    try apply kept_refl; [exact I|].
  pose proof (post_cond_wait (Some D) s) as Hw.
  destruct (cond_wait go (Some D) s) as [u s1|e s1|]; auto.
  destruct (Qlt_bool D (now (ext s1) - start)); [exact Hw|].
  specialize (IH s1).
  destruct (deadline_wait go fuel f D start s1); auto;
    eapply kept_trans; eauto.
Qed.

Lemma post_record_tile_time (t : Q) : post (record_tile_time t) moved.
Proof. intros s. right. exists t. split; reflexivity. Qed.

Lemma post_quick_miss fuel row col map_type zoom mz priority :
  post (quick_miss go fuel row col map_type zoom mz priority) moved.
Proof.
  unfold quick_miss.
  apply post_bind_moved; [apply post_wait_while_active|].
  intros [f|]; [apply post_weaken, post_ret|].
  apply post_bind_moved; [apply post_time|]. intros t0.
  apply post_bind_moved; [apply post_int_|]. intros c.
  apply post_bind_moved; [apply post_int_|]. intros r.
  apply post_bind_moved; [apply post_call_renderer|]. intros _.
  apply post_bind_moved; [apply post_time|]. intros t1.
  intros s. unfold bind.
  pose proof (post_record_tile_time (t1 - t0)%Q s) as H.
  destruct (record_tile_time (t1 - t0)%Q s) as [u s1|e s1|]; auto.
Qed.

(** [get_quick] leaves the controller alone or steps it once. *)
Lemma post_get_quick fuel row col map_type zoom min_zoom priority :
  post (get_quick go fuel row col map_type zoom min_zoom priority) moved.
Proof.
  unfold get_quick.
  apply post_bind_moved; [apply post_log_event|]. intros _.
  apply post_bind_moved; [apply post_get|]. intros s0.
  destruct (zoom_walk _ _ _); [apply post_weaken, post_ret|].
  apply post_quick_miss.
Qed.

Lemma post_get_target fuel row col map_type zoom :
  post (get_target go fuel row col map_type zoom) moved.
Proof.
  unfold get_target.
  apply post_bind_moved; [apply post_get|]. intros s0.
  apply post_bind_moved; [apply post_int_|]. intros r.
  apply post_bind_moved; [apply post_int_|]. intros c.
  apply post_get_quick.
Qed.

(** [get_background] never touches the controller. *)
Lemma post_get_background row col map_type zoom :
  post (get_background go row col map_type zoom) kept.
Proof.
  unfold get_background.
  apply post_bind_kept; [apply post_get|]. intros s0.
  destruct (exists_ _ _); [apply post_ret|].
  apply post_bind_kept; [apply post_int_|]. intros c.
  apply post_bind_kept; [apply post_int_|]. intros r.
  apply post_call_renderer.
Qed.

Lemma post_get_best fuel row col map_type zoom :
  post (get_best go fuel row col map_type zoom) moved.
Proof.
  unfold get_best.
  apply post_bind_moved; [apply post_get|]. intros s0.
  destruct (exists_ _ _); [apply post_weaken, post_ret|].
  destruct (active _ _).
  - apply post_bind_moved; [apply post_int_|]. intros r.
    apply post_bind_moved; [apply post_int_|]. intros c.
    apply post_get_quick.
  - apply post_weaken, post_bind_kept; [|intros; apply post_ret].
    apply post_try_except; [|apply post_ret].
    apply post_bind_kept; [apply post_int_|]. intros c.
    apply post_bind_kept; [apply post_int_|]. intros r.
    apply post_call_renderer.
Qed.

Lemma post_get_deadline fuel row col map_type zoom quick_zoom min_zoom
    deadline priority :
  post (get_deadline go fuel row col map_type zoom quick_zoom min_zoom
          deadline priority) moved.
Proof.
  unfold get_deadline.
  apply post_bind_moved; [apply post_get|]. intros s0.
  destruct (exists_ _ _); [apply post_weaken, post_ret|].
  apply post_bind_moved; [apply post_int_|]. intros c.
  apply post_bind_moved; [apply post_int_|]. intros r.
  apply post_bind_moved; [apply post_call_renderer|]. intros _.
  apply post_bind_moved; [apply post_time|]. intros t0.
  apply post_bind_moved.
  - apply post_with_lock; [intros s s' H; exact H|].
    apply post_bind_kept; [apply post_deadline_wait|]. intros b.
    apply post_bind_kept; [apply post_get|]. intros s1. apply post_ret.
  - intros [|]; [apply post_weaken, post_ret|].
    apply post_bind_moved; [apply post_int_|]. intros r'.
    apply post_bind_moved; [apply post_int_|]. intros c'.
    apply post_get_quick.
Qed.

(** Only a fetch that the renderer completed steps the controller: when
    [get_quick] raises, the window and the target are as before. *)
Lemma get_quick_raise_keeps fuel row col map_type zoom min_zoom priority
    (s : State) (x : exn) (s' : State) :
  get_quick go fuel row col map_type zoom min_zoom priority s = Raise x s' ->
  kept s s'.
Proof.
  unfold get_quick, bind, log_event, modify, get, ret. cbn [ext emit].
  destruct (zoom_walk _ _ _); [discriminate|].
  unfold quick_miss, bind.
  set (s0 := emit _ s). set (f := cache_path _ _ _ _).
  pose proof (post_wait_while_active fuel f s0) as Hw.
  destruct (wait_while_active go fuel f s0) as [[f'|] s1|e1 s1|];
    try discriminate.
  - unfold time, int_.
    destruct (Py.to_int col) as [c|];
      [|intros H; inversion H; subst; exact Hw].
    cbn [ret]. destruct (Py.to_int row) as [r|];
      [|intros H; inversion H; subst; exact Hw].
    cbn [ret]. unfold call_renderer.
    destruct (get_quick_tile go _ _ _ _ _ _ _ _); [discriminate|].
    intros H; inversion H; subst. exact Hw.
  - intros H; inversion H; subst. exact Hw.
Qed.

(** The range the guards of the controller do maintain is [11, 18]. *)
Lemma moved_range (s s' : State) :
  moved s s' -> 11 <= target_zoom s <= 18 -> 11 <= target_zoom s' <= 18.
Proof.
  intros [[_ H]|(t & _ & H)] Hr; rewrite H; [exact Hr|].
  now apply adapt_range.
Qed.

Lemma moved_window (s s' : State) :
  moved s s' -> (length (tile_times s) <= 5)%nat ->
  (length (tile_times s') <= 5)%nat.
Proof.
  intros [[H _]|(t & H & _)] Hr; rewrite H; [exact Hr|].
  now apply deque_append_length.
Qed.

End ControllerFrame.

(** * Further properties of the code *)

(** ** What [get_quick] can return *)

Lemma wait_while_active_some (go : GetOrtho) (fuel : nat) (f : string) :
  forall s r s',
    wait_while_active go fuel f s = Ok r s' -> r = None \/ r = Some f.
Proof.
  induction fuel as [|fuel IH]; intros s r s' H; cbn [wait_while_active] in H.
  - destruct (active f (ext s)); [discriminate|]. inversion H; auto.
  - destruct (active f (ext s)); [|inversion H; auto].
    destruct (cond_wait go None s) as [u s1|e s1|]; try discriminate.
    destruct (exists_ f (ext s1)); [inversion H; auto | eauto].
Qed.

Lemma quick_miss_path (go : GetOrtho) fuel row col map_type zoom mz priority
    (s : State) (f : string) (s' : State) :
  quick_miss go fuel row col map_type zoom mz priority s = Ok f s' ->
  f = cache_path row col map_type mz.
Proof.
  unfold quick_miss, bind.
  destruct (wait_while_active go fuel _ s) as [r s1|e s1|] eqn:Ew;
    try discriminate.
  destruct (wait_while_active_some _ _ _ _ _ _ Ew) as [-> | ->].
  - unfold time, int_.
    destruct (Py.to_int col); [|discriminate]. cbn [ret].
    destruct (Py.to_int row); [|discriminate]. cbn [ret].
    unfold call_renderer.
    destruct (get_quick_tile go _ _ _ _ _ _ _ _); [|discriminate].
    unfold record_tile_time, modify, ret. intros H. now inversion H.
  - unfold ret. intros H. now inversion H.
Qed.

Lemma get_quick_cases
    (go : GetOrtho) (fuel : nat) (row col : Py.value) (map_type : string)
    (zoom min_zoom priority : Z) (s : State) (f : string) (s' : State) :
  get_quick go fuel row col map_type zoom min_zoom priority s = Ok f s' ->
  let mz := default_min_zoom zoom min_zoom in
  let path := cache_path row col map_type in
  (exists z,
     mz <= z <= zoom /\ f = path z
     /\ active f (ext s) = false /\ exists_ f (ext s) = true
     /\ s' = emit (CallGetQuick row col map_type zoom min_zoom priority) s)
  \/ (f = path mz /\ forall z, mz <= z <= zoom -> blocked (ext s) path z).
Proof.
  intros H mz path.
  destruct (zoom_walk (ext s) path (Py.range_down zoom mz)) as [g|] eqn:Ew.
  - left. rewrite (get_quick_hit go fuel _ _ _ _ _ priority s g Ew) in H.
    inversion H; subst.
    destruct (zoom_walk_some_inv _ _ _ _ Ew) as (z & Hz & Hf & Ha & He).
    exists z. apply elem_of_range_down in Hz. auto.
  - right. rewrite (get_quick_miss go fuel _ _ _ _ _ priority s Ew) in H.
    split; [exact (quick_miss_path _ _ _ _ _ _ _ _ _ _ _ H)|].
    intros z Hz. apply (zoom_walk_none_inv _ _ _ Ew).
    now apply elem_of_range_down.
Qed.

(** X1.  Whatever [get_quick] returns is the cache path of the requested
    row, col and maptype at one of the levels of its walk: either a level
    between [min_zoom] and [zoom] whose file existed and was not being
    worked on when the call began, in which case nothing else happened, or
    the [min_zoom] level, and then every level of the walk was passed
    over. *)
Theorem get_quick_result
    (go : GetOrtho) (fuel : nat) (row col : Py.value) (map_type : string)
    (zoom min_zoom priority : Z) (s : State) (f : string) (s' : State) :
  get_quick go fuel row col map_type zoom min_zoom priority s = Ok f s' ->
  let mz := default_min_zoom zoom min_zoom in
  let path := cache_path row col map_type in
  (exists z,
     mz <= z <= zoom /\ f = path z
     /\ active f (ext s) = false /\ exists_ f (ext s) = true
     /\ s' = emit (CallGetQuick row col map_type zoom min_zoom priority) s)
  \/ (f = path mz /\ forall z, mz <= z <= zoom -> blocked (ext s) path z).
Proof.
  exact (get_quick_cases go fuel row col map_type zoom min_zoom priority s f
           s').
Qed.

Lemma get_quick_result_witness :
  let s := Sample.fresh
             (Sample.world {[".cache/30_20_BI_14.dds" := "DDS"]} ∅) in
  let f := ".cache/30_20_BI_14.dds" in
  let s' := emit (CallGetQuick (Py.Int 30) (Py.Int 20) "BI" 16 0 1) s in
  get_quick (Sample.steady 3) 4 (Py.Int 30) (Py.Int 20) "BI" 16 0 1 s
  = Ok f s'
  /\ ((exists z,
         default_min_zoom 16 0 <= z <= 16
         /\ f = cache_path (Py.Int 30) (Py.Int 20) "BI" z
         /\ active f (ext s) = false /\ exists_ f (ext s) = true
         /\ s' = emit (CallGetQuick (Py.Int 30) (Py.Int 20) "BI" 16 0 1) s)
      \/ (f = cache_path (Py.Int 30) (Py.Int 20) "BI" (default_min_zoom 16 0)
          /\ forall z, default_min_zoom 16 0 <= z <= 16 ->
                       blocked (ext s) (cache_path (Py.Int 30) (Py.Int 20) "BI")
                         z)).
Proof.
  intros s f s'.
  split; [vm_compute; reflexivity|].
  apply (get_quick_result (Sample.steady 3) 4 (Py.Int 30) (Py.Int 20) "BI"
           16 0 1 s f s').
  vm_compute; reflexivity.
Defined.

(** The level of a path returned by [get_quick]. *)
Lemma get_quick_level
    (go : GetOrtho) (fuel : nat) (row col : Py.value) (map_type : string)
    (zoom min_zoom priority : Z) (s : State) (f : string) (s' : State)
    (lo : Z) :
  get_quick go fuel row col map_type zoom min_zoom priority s = Ok f s' ->
  lo <= default_min_zoom zoom min_zoom <= zoom ->
  exists z, lo <= z <= zoom /\ f = cache_path row col map_type z.
Proof.
  intros H Hlo.
  destruct (get_quick_cases _ _ _ _ _ _ _ _ _ _ _ H)
    as [(z & Hz & Hf & _)|[Hf _]].
  - exists z. split; [lia | exact Hf].
  - exists (default_min_zoom zoom min_zoom). split; [lia | exact Hf].
Qed.

(** X2.  For a positive zoom and a positive target zoom, a path returned
    by [get_target] is the cache path of the tile at a level between
    [zoom - 2] and [zoom]: the adaptive target never pushes the result more
    than two levels down, nor above the level asked for. *)
Theorem get_target_level
    (go : GetOrtho) (fuel : nat) (row col : Py.value) (map_type : string)
    (zoom : Z) (s : State) (f : string) (s' : State) :
  0 < zoom -> 0 < target_zoom s ->
  get_target go fuel row col map_type zoom s = Ok f s' ->
  exists r c z,
    Py.to_int row = Some r /\ Py.to_int col = Some c
    /\ zoom - 2 <= z <= zoom
    /\ f = cache_path (Py.Int r) (Py.Int c) map_type z.
Proof.
  intros Hz Ht H. unfold get_target, bind, get, int_ in H.
  destruct (Py.to_int row) as [r|]; [|discriminate]. cbn [ret] in H.
  destruct (Py.to_int col) as [c|]; [|discriminate]. cbn [ret] in H.
  exists r, c.
  destruct (get_quick_level _ _ _ _ _ _ _ _ _ _ _ (zoom - 2) H)
    as (z & Hzr & Hf).
  - unfold default_min_zoom.
    destruct (Z.min zoom (Z.max (zoom - 2) (target_zoom s)) =? 0)%Z eqn:E.
    + apply Z.eqb_eq in E. lia.
    + lia.
  - exists z. auto.
Qed.

Lemma get_target_level_witness :
  let s := Sample.init in
  let f := ".cache/30_20_BI_16.dds" in
  0 < 18 /\ 0 < target_zoom s
  /\ exists s',
       get_target (Sample.steady 3) 4 (Py.Int 30) (Py.Int 20) "BI" 18 s
       = Ok f s'
       /\ exists r c z,
            Py.to_int (Py.Int 30) = Some r /\ Py.to_int (Py.Int 20) = Some c
            /\ 18 - 2 <= z <= 18
            /\ f = cache_path (Py.Int r) (Py.Int c) "BI" z.
Proof.
  intros s f. split; [lia|]. split; [reflexivity|].
  eexists. split; [vm_compute; reflexivity|].
  eapply (get_target_level (Sample.steady 3) 4 (Py.Int 30) (Py.Int 20) "BI"
            18 s f); [lia | reflexivity | vm_compute; reflexivity].
Defined.

(** ** get_best *)

(** X3.  [get_best] returns the path of the requested zoom unchanged when
    the file exists; degrades to [get_quick] with [min_zoom = zoom - 2] when
    the file is missing and being worked on; and otherwise calls [get_tile]
    once and returns the same path whether the renderer returned or
    raised, so the path may be that of a file that does not exist. *)
Theorem get_best_result
    (go : GetOrtho) (fuel : nat) (row col : Py.value) (map_type : string)
    (zoom : Z) (s : State) :
  let K := cache_path row col map_type zoom in
  (exists_ K (ext s) = true ->
   get_best go fuel row col map_type zoom s = Ok K s)
  /\
  (forall r c,
     exists_ K (ext s) = false -> active K (ext s) = true ->
     Py.to_int row = Some r -> Py.to_int col = Some c ->
     get_best go fuel row col map_type zoom s
     = get_quick go fuel (Py.Int r) (Py.Int c) map_type zoom (zoom - 2) 1 s)
  /\
  (forall r c,
     exists_ K (ext s) = false -> active K (ext s) = false ->
     Py.to_int row = Some r -> Py.to_int col = Some c ->
     get_best go fuel row col map_type zoom s
     = Ok K
         (set_ext
            match get_tile go c r zoom map_type K (ext s) with
            | Returned e' => e'
            | Failed _ e' => e'
            end
            (emit (Tile c r zoom map_type K) s))).
Proof.
  intros K. split; [|split].
  - intros He. unfold get_best, bind, get. fold K. now rewrite He.
  - intros r c He Ha Hr Hc. unfold get_best, bind, get. fold K.
    rewrite He, Ha. unfold int_. now rewrite Hr, Hc.
  - intros r c He Ha Hr Hc. unfold get_best, bind, get. fold K.
    rewrite He, Ha. unfold try_except, bind, int_. rewrite Hc, Hr.
    cbn [ret]. unfold call_renderer.
    now destruct (get_tile go c r zoom map_type K (ext s)).
Qed.

Lemma get_best_result_witness :
  (let s := Sample.fresh
              (Sample.world {[".cache/30_20_BI_16.dds" := "DDS"]} ∅) in
   exists_ ".cache/30_20_BI_16.dds" (ext s) = true
   /\ get_best Sample.failing 4 (Py.Int 30) (Py.Int 20) "BI" 16 s
      = Ok ".cache/30_20_BI_16.dds" s)
  /\
  (let s := Sample.fresh (Sample.world ∅ {[".cache/30_20_BI_16.dds"]}) in
   get_best (Sample.steady 3) 4 (Py.Int 30) (Py.Int 20) "BI" 16 s
   = get_quick (Sample.steady 3) 4 (Py.Int 30) (Py.Int 20) "BI" 16 (16 - 2) 1
       s)
  /\
  (let s := Sample.init in
   let K := ".cache/30_20_BI_16.dds" in
   get_best Sample.failing 4 (Py.Int 30) (Py.Int 20) "BI" 16 s
   = Ok K (set_ext (ext s) (emit (Tile 20 30 16 "BI" K) s))
   /\ exists_ K (ext s) = false).
Proof.
  split; [|split].
  - split; [vm_compute; reflexivity|].
    apply (proj1 (get_best_result Sample.failing 4 (Py.Int 30) (Py.Int 20)
                    "BI" 16 _)).
    vm_compute; reflexivity.
  - apply (proj1 (proj2 (get_best_result (Sample.steady 3) 4 (Py.Int 30)
                           (Py.Int 20) "BI" 16 _)) 30 20);
      [vm_compute; reflexivity | vm_compute; reflexivity
      | reflexivity | reflexivity].
  - split; [|vm_compute; reflexivity].
    apply (proj2 (proj2 (get_best_result Sample.failing 4 (Py.Int 30)
                           (Py.Int 20) "BI" 16 Sample.init)) 30 20);
      [vm_compute; reflexivity | vm_compute; reflexivity
      | reflexivity | reflexivity].
Defined.

(** ** Invariants of the cache *)

Lemma post_implies {A} (m : M A) (R R' : State -> State -> Prop) :
  (forall s s', R s s' -> R' s s') -> post m R -> post m R'.
Proof.
  intros HR H s. specialize (H s). destruct (m s); auto.
Qed.

Lemma moved_controller_ok (s s' : State) :
  moved s s' -> controller_ok s -> controller_ok s'.
Proof.
  intros Hm [Hw Hz]. split.
  - now apply (moved_window s s').
  - now apply (moved_range s s').
Qed.

(** X4.  Every retrieval operation of the cache keeps the controller in
    order, whether it returns or raises: the tile time window never holds
    more than five durations and the target zoom never leaves [11, 18]. *)
Theorem cache_keeps_controller_ok
    (go : GetOrtho) (fuel : nat) (row col : Py.value) (map_type : string)
    (zoom min_zoom quick_zoom priority : Z) (deadline : Q) :
  let R := fun s s' => controller_ok s -> controller_ok s' in
  post (get_quick go fuel row col map_type zoom min_zoom priority) R
  /\ post (get_target go fuel row col map_type zoom) R
  /\ post (get_background go row col map_type zoom) R
  /\ post (get_best go fuel row col map_type zoom) R
  /\ post (get_deadline go fuel row col map_type zoom quick_zoom min_zoom
             deadline priority) R.
Proof.
  intros R. repeat split;
    (eapply post_implies; [exact moved_controller_ok|]).
  - apply post_get_quick.
  - apply post_get_target.
  - apply post_weaken, post_get_background.
  - apply post_get_best.
  - apply post_get_deadline.
Qed.

Section LockFrame.

Variable go : GetOrtho.

Lemma lock_bind {A B} (m : M A) (k : A -> M B) :
  post m lock_kept -> (forall a, post (k a) lock_kept) ->
  post (bind m k) lock_kept.
Proof.
  intros Hm Hk s. unfold bind. specialize (Hm s).
  destruct (m s) as [a s1|e s1|]; auto.
  specialize (Hk a s1). unfold lock_kept in *.
  destruct (k a s1); auto; congruence.
Qed.

Lemma lock_ret {A} (a : A) : post (ret a) lock_kept.
Proof. intros s. reflexivity. Qed.

Lemma lock_int_ (v : Py.value) : post (int_ v) lock_kept.
Proof. intros s. unfold int_. destruct (Py.to_int v); reflexivity. Qed.

Lemma lock_call_renderer (ev : event) (f : Ext -> called) :
  post (call_renderer ev f) lock_kept.
Proof. intros s. unfold call_renderer. destruct (f (ext s)); reflexivity. Qed.

Lemma lock_cond_wait (timeout : option Q) :
  post (cond_wait go timeout) lock_kept.
Proof.
  intros s. unfold cond_wait.
  destruct (lock_held s) eqn:E; unfold lock_kept; cbn; congruence.
Qed.

(** Leaving a [with] block gives the lock back, however the block ends. *)
Lemma lock_with_lock {A} (m : M A) : post (with_lock m) lock_kept.
Proof.
  intros s. unfold with_lock. destruct (m (set_lock true s)); reflexivity.
Qed.

Lemma lock_wait_while_active (fuel : nat) (f : string) :
  post (wait_while_active go fuel f) lock_kept.
Proof.
  induction fuel as [|fuel IH]; intros s; cbn [wait_while_active];
    destruct (active f (ext s)); try (unfold lock_kept; reflexivity);
    try exact I.
  pose proof (lock_cond_wait None s) as Hw.
  destruct (cond_wait go None s) as [u s1|e s1|]; auto.
  destruct (exists_ f (ext s1)); [exact Hw|].
  specialize (IH s1). unfold lock_kept in *.
  destruct (wait_while_active go fuel f s1); auto; congruence.
Qed.

Lemma lock_get_quick fuel row col map_type zoom min_zoom priority :
  post (get_quick go fuel row col map_type zoom min_zoom priority) lock_kept.
Proof.
  unfold get_quick.
  apply lock_bind; [intros s; reflexivity|]. intros _.
  apply lock_bind; [intros s; reflexivity|]. intros s0.
  destruct (zoom_walk _ _ _); [apply lock_ret|].
  unfold quick_miss.
  apply lock_bind; [apply lock_wait_while_active|].
  intros [f|]; [apply lock_ret|].
  apply lock_bind; [intros s; reflexivity|]. intros t0.
  apply lock_bind; [apply lock_int_|]. intros c.
  apply lock_bind; [apply lock_int_|]. intros r.
  apply lock_bind; [apply lock_call_renderer|]. intros _.
  apply lock_bind; [intros s; reflexivity|]. intros t1.
  apply lock_bind; [intros s; reflexivity|]. intros _.
  apply lock_ret.
Qed.

Lemma lock_get_target fuel row col map_type zoom :
  post (get_target go fuel row col map_type zoom) lock_kept.
Proof.
  unfold get_target.
  apply lock_bind; [intros s; reflexivity|]. intros s0.
  apply lock_bind; [apply lock_int_|]. intros r.
  apply lock_bind; [apply lock_int_|]. intros c.
  apply lock_get_quick.
Qed.

Lemma lock_get_background row col map_type zoom :
  post (get_background go row col map_type zoom) lock_kept.
Proof.
  unfold get_background.
  apply lock_bind; [intros s; reflexivity|]. intros s0.
  destruct (exists_ _ _); [apply lock_ret|].
  apply lock_bind; [apply lock_int_|]. intros c.
  apply lock_bind; [apply lock_int_|]. intros r.
  apply lock_call_renderer.
Qed.

Lemma lock_get_best fuel row col map_type zoom :
  post (get_best go fuel row col map_type zoom) lock_kept.
Proof.
  unfold get_best.
  apply lock_bind; [intros s; reflexivity|]. intros s0.
  destruct (exists_ _ _); [apply lock_ret|].
  destruct (active _ _).
  - apply lock_bind; [apply lock_int_|]. intros r.
    apply lock_bind; [apply lock_int_|]. intros c.
    apply lock_get_quick.
  - apply lock_bind; [|intros; apply lock_ret].
    intros s. unfold try_except, bind, int_.
    destruct (Py.to_int col); [|reflexivity]. cbn [ret].
    destruct (Py.to_int row); [|reflexivity]. cbn [ret].
    unfold call_renderer. destruct (get_tile go _ _ _ _ _ _); reflexivity.
Qed.

Lemma lock_get_deadline fuel row col map_type zoom quick_zoom min_zoom
    deadline priority :
  post (get_deadline go fuel row col map_type zoom quick_zoom min_zoom
          deadline priority) lock_kept.
Proof.
  unfold get_deadline.
  apply lock_bind; [intros s; reflexivity|]. intros s0.
  destruct (exists_ _ _); [apply lock_ret|].
  apply lock_bind; [apply lock_int_|]. intros c.
  apply lock_bind; [apply lock_int_|]. intros r.
  apply lock_bind; [apply lock_call_renderer|]. intros _.
  apply lock_bind; [intros s; reflexivity|]. intros t0.
  apply lock_bind; [apply lock_with_lock|].
  intros [|]; [apply lock_ret|].
  apply lock_bind; [apply lock_int_|]. intros r'.
  apply lock_bind; [apply lock_int_|]. intros c'.
  apply lock_get_quick.
Qed.

End LockFrame.

(** X5.  No retrieval operation leaks the lock of the tile condition:
    when it returns or raises, also out of the [with] block of
    [get_deadline], the calling thread owns the lock exactly if it owned
    it before the call. *)
Theorem cache_releases_lock
    (go : GetOrtho) (fuel : nat) (row col : Py.value) (map_type : string)
    (zoom min_zoom quick_zoom priority : Z) (deadline : Q) :
  post (get_quick go fuel row col map_type zoom min_zoom priority) lock_kept
  /\ post (get_target go fuel row col map_type zoom) lock_kept
  /\ post (get_background go row col map_type zoom) lock_kept
  /\ post (get_best go fuel row col map_type zoom) lock_kept
  /\ post (get_deadline go fuel row col map_type zoom quick_zoom min_zoom
             deadline priority) lock_kept.
Proof.
  repeat split.
  - apply lock_get_quick.
  - apply lock_get_target.
  - apply lock_get_background.
  - apply lock_get_best.
  - apply lock_get_deadline.
Qed.

(** ** The workers of the prefetch *)

Section Workers.

Variable go : GetOrtho.
























(** The worker goes through its chunk in order. *)
Lemma get_dds_app fuel extra_fast (pre rest : list string) :
  forall s,
    get_dds go fuel (pre ++ rest) extra_fast s
    = (do_ get_dds go fuel pre extra_fast;
       get_dds go fuel rest extra_fast) s.
Proof.
  induction pre as [|d pre IH]; intros s; [reflexivity|].
  cbn [app get_dds]. unfold bind.
  destruct (get_one_dds go fuel extra_fast d s) as [u s1|e s1|];
    [|reflexivity|reflexivity].
  rewrite IH. reflexivity.
Qed.

(** What a worker raises ends it: the paths that follow in its chunk are
    not looked at. *)
Lemma get_dds_stops fuel extra_fast (pre rest : list string) s0 x s1 :
  get_dds go fuel pre extra_fast s0 = Raise x s1 ->
  get_dds go fuel (pre ++ rest) extra_fast s0 = Raise x s1.
Proof. intros H. rewrite get_dds_app. unfold bind. now rewrite H. Qed.



(** Without its directory the placeholder cannot be created: the worker
    ends on [FileNotFoundError]. *)
Lemma get_one_dds_no_directory fuel extra_fast dds row col maptype zoom s :
  Re.match_ Re.dds_re dds = Some [row; col; maptype; zoom] ->
  files (ext s) !! dds = None ->
  isdir (Py.dirname dds) (ext s) = false ->
  get_one_dds go fuel extra_fast dds s = Raise (FileNotFoundError dds) s.
Proof.
  intros Hm Hf Hd. unfold get_one_dds. rewrite Hm.
  unfold bind at 1. unfold get. unfold bind at 1. unfold exists_.
  rewrite Hf, bool_decide_eq_false_2 by (intros [x Hx]; discriminate).
  unfold touch. now rewrite Hd.
Qed.

End Workers.

(** A worker whose first call fails leaves the rest of its chunk alone:
    with a renderer whose downloads fail, of two empty placeholders only
    the first is asked for. *)
Lemma worker_leaves_the_rest :
  let s := Sample.fresh
             (Sample.world {["/t/1_1_BI16.dds" := ""; "/t/2_1_BI16.dds" := ""]}
                ∅) in
  exists s',
    run_worker Sample.failing 4 true ["/t/1_1_BI16.dds"; "/t/2_1_BI16.dds"] s
    = Ok tt s'
    /\ trace s'
       = [CallGetQuick (Py.Str "1") (Py.Str "1") "BI" 16 0 0;
          QuickTile 1 1 16 13 "BI" ".cache/1_1_BI_13.dds" 0].
Proof. eexists. split; vm_compute; reflexivity. Qed.

(** A worker that cannot create a placeholder, its directory missing,
    ends on [FileNotFoundError] with nothing asked for. *)
Lemma worker_without_directory :
  get_dds (Sample.steady 3) 4 ["/u/2_1_BI16.dds"; "/u/3_1_BI16.dds"] true
    Sample.init
  = Raise (FileNotFoundError "/u/2_1_BI16.dds") Sample.init.
Proof. vm_compute; reflexivity. Qed.



(** ** The controller on a short window *)

Lemma avg_time_slow_iff (w : list Q) :
  (2 < avg_time w)%Q <-> (10 < fold_left Qplus w 0%Q)%Q.
Proof.
  unfold avg_time. set (t := fold_left Qplus w 0%Q). clearbody t.
  assert (H : (t / 5 == t * (1 # 5))%Q) by (unfold Qdiv; reflexivity).
  rewrite H. split; intros; lra.
Qed.

Lemma avg_time_fast_iff (w : list Q) :
  (avg_time w <= 3 # 10)%Q <-> (fold_left Qplus w 0%Q <= 3 # 2)%Q.
Proof.
  unfold avg_time. set (t := fold_left Qplus w 0%Q). clearbody t.
  assert (H : (t / 5 == t * (1 # 5))%Q) by (unfold Qdiv; reflexivity).
  rewrite H. split; intros; lra.
Qed.

(** X6.  The average divides the sum of the window by five however many
    durations it holds.  So on an empty window the first fetch that the
    renderer completes, in [dt] seconds, lowers the target zoom (when it is
    at least 12) only if [dt > 10], raises it (when it is below 18) as soon
    as [dt <= 1.5], and leaves it alone in between. *)
Theorem first_fetch_thresholds
    (go : GetOrtho) (fuel : nat) (row col : Py.value) (map_type : string)
    (zoom min_zoom priority : Z) (s : State) (c r : Z) (e' : Ext) :
  let mz := default_min_zoom zoom min_zoom in
  let path := cache_path row col map_type in
  let dt := (now e' - now (ext s))%Q in
  let tz := target_zoom s in
  tile_times s = [] ->
  (forall z, mz <= z <= zoom -> blocked (ext s) path z) ->
  active (path mz) (ext s) = false ->
  Py.to_int col = Some c -> Py.to_int row = Some r ->
  get_quick_tile go c r zoom mz map_type (path mz) priority (ext s)
  = Returned e' ->
  exists s',
    get_quick go fuel row col map_type zoom min_zoom priority s
    = Ok (path mz) s'
    /\ tile_times s' = [dt]
    /\ ((10 < dt)%Q ->
        target_zoom s' = if (12 <=? tz)%Z then tz - 1 else tz)
    /\ ((dt <= 3 # 2)%Q ->
        target_zoom s' = if (tz <? 18)%Z then tz + 1 else tz)
    /\ ((3 # 2 < dt)%Q -> (dt <= 10)%Q -> target_zoom s' = tz).
Proof.
  intros mz path dt tz Hw Hb Ha Hc Hr Hq.
  eexists. split.
  { rewrite get_quick_miss.
    - apply (quick_miss_fetch go fuel row col map_type zoom mz priority _ c r
               e'); [exact Ha | exact Hc | exact Hr | exact Hq].
    - apply zoom_walk_none. intros z Hz. apply Hb.
      now apply elem_of_range_down. }
  unfold fetched. cbn [tile_times target_zoom set_controller emit set_ext ext].
  rewrite Hw. fold dt. fold tz.
  assert (Ht : (fold_left Qplus (deque_append [] dt) 0%Q == dt)%Q).
  { cbn. ring. }
  split; [reflexivity|].
  split; [|split].
  - intros H. apply adapt_slow. apply avg_time_slow_iff. rewrite Ht. exact H.
  - intros H. apply adapt_fast. apply avg_time_fast_iff. rewrite Ht. exact H.
  - intros H1 H2. apply adapt_between.
    + apply Qnot_le_lt. intros H. apply avg_time_fast_iff in H.
      rewrite Ht in H. clear - H H1. lra.
    + apply Qnot_lt_le. intros H. apply avg_time_slow_iff in H.
      rewrite Ht in H. clear - H H2. lra.
Qed.

Lemma first_fetch_thresholds_witness :
  let s := Sample.init in
  let f := ".cache/30_20_BI_13.dds" in
  let e' := Sample.write f (Sample.tick 3 (ext s)) in
  let dt := (now e' - now (ext s))%Q in
  tile_times s = []
  /\ exists s',
       get_quick (Sample.steady 3) 4 (Py.Int 30) (Py.Int 20) "BI" 16 0 1 s
       = Ok f s'
       /\ tile_times s' = [dt]
       /\ ((10 < dt)%Q ->
           target_zoom s'
           = if (12 <=? target_zoom s)%Z then target_zoom s - 1
             else target_zoom s)
       /\ ((dt <= 3 # 2)%Q ->
           target_zoom s'
           = if (target_zoom s <? 18)%Z then target_zoom s + 1
             else target_zoom s)
       /\ ((3 # 2 < dt)%Q -> (dt <= 10)%Q -> target_zoom s' = target_zoom s).
Proof.
  intros s f e' dt. split; [reflexivity|].
  apply (first_fetch_thresholds (Sample.steady 3) 4 (Py.Int 30) (Py.Int 20)
           "BI" 16 0 1 s 20 30 e').
  - reflexivity.
  - intros z _. right. apply exists_empty.
  - vm_compute; reflexivity.
  - reflexivity.
  - reflexivity.
  - reflexivity.
Defined.

(** ** The chunks of the prefetch *)

Lemma slices_concat {A : Type} (k m : nat) :
  forall l : list A,
    (length l <= m * k)%nat ->
    concat (map (fun j => slice l (j * k) (j * k + k)) (seq 0 m)) = l.
Proof.
  induction m as [|m IH]; intros l Hl.
  - destruct l; [reflexivity | cbn in Hl; lia].
  - cbn [seq]. rewrite <- seq_shift. cbn [map]. rewrite map_map.
    rewrite (map_ext (fun x => slice l (S x * k) (S x * k + k))
               (fun x => slice (drop k l) (x * k) (x * k + k)))
      by (intros; apply slice_shift).
    cbn [concat]. rewrite IH by (rewrite length_drop; lia).
    unfold slice. replace (0 * k)%nat with 0%nat by lia. rewrite drop_0.
    replace (0 + k - 0)%nat with k by lia.
    apply take_drop.
Qed.

Lemma slice_length {A : Type} (l : list A) (i k : nat) :
  length (slice l i (i + k)) = Nat.min k (length l - i).
Proof.
  unfold slice. rewrite length_take, length_drop.
  replace (i + k - i)%nat with k by lia. reflexivity.
Qed.

Lemma chunked_list_partition (dds_list : list string) (s : State) :
  (8 <= length dds_list)%nat ->
  exists chunks,
    chunked_list dds_list s = Ok chunks s
    /\ (8 <= length chunks <= 15)%nat
    /\ Forall (fun c => (0 < length c <= length dds_list / 8)%nat) chunks
    /\ concat chunks = dds_list.
Proof.
  intros Hn. unfold chunked_list.
  set (n := length dds_list) in *. set (k := (n / 8)%nat).
  assert (Hk8 : (8 * k <= n)%nat) by (apply Nat.Div0.mul_div_le).
  assert (Hk9 : (n < 8 * S k)%nat) by (apply Nat.mul_succ_div_gt; lia).
  assert (Hk : (0 < k)%nat) by lia.
  destruct (k =? 0)%nat eqn:E; [apply Nat.eqb_eq in E; lia|].
  unfold range_step. set (m := ((n + k - 1) / k)%nat).
  assert (Hm1 : (k * m <= n + k - 1)%nat) by (apply Nat.Div0.mul_div_le).
  assert (Hm2 : (n + k - 1 < k * S m)%nat) by (apply Nat.mul_succ_div_gt; lia).
  eexists. split; [reflexivity|].
  rewrite !length_map, length_seq, map_map.
  split; [nia|]. split.
  - apply Forall_forall. intros c Hc.
    apply list_elem_of_In, in_map_iff in Hc. destruct Hc as (j & <- & Hj).
    apply in_seq in Hj. rewrite slice_length. fold n. nia.
  - apply slices_concat. fold n. nia.
Qed.

(** X7.  With eight or more distinct paths the prefetch loses none and
    doubles none: the chunks, taken in order, are the list of the set, each
    path is in exactly one chunk, no chunk is empty or longer than
    [n // 8], and between 8 and 15 workers are started, one per chunk. *)
Theorem prefetch_partition
    (go : GetOrtho) (fuel : nat) (dds_full_paths : gset string)
    (extra_fast : bool) (s : State) :
  (8 <= size dds_full_paths)%nat ->
  exists chunks,
    chunked_list (elements dds_full_paths) s = Ok chunks s
    /\ (8 <= length chunks <= 15)%nat
    /\ Forall (fun c => (0 < length c <= size dds_full_paths / 8)%nat) chunks
    /\ concat chunks = elements dds_full_paths
    /\ NoDup (concat chunks)
    /\ (forall dds, dds ∈ dds_full_paths <-> dds ∈ concat chunks)
    /\ prefetch go fuel dds_full_paths extra_fast s
       = run_workers go fuel extra_fast chunks s.
Proof.
  intros Hn.
  destruct (chunked_list_partition (elements dds_full_paths) s Hn)
    as (chunks & Hc & Hl & Hf & Hcat).
  exists chunks. split; [exact Hc|]. split; [exact Hl|].
  split; [exact Hf|]. split; [exact Hcat|].
  split; [rewrite Hcat; apply NoDup_elements|].
  split; [intros dds; rewrite Hcat; symmetry; apply elem_of_elements|].
  unfold prefetch, bind. now rewrite Hc.
Qed.

Lemma prefetch_partition_witness :
  (8 <= size eight_paths)%nat
  /\ exists chunks,
       chunked_list (elements eight_paths) eight_placeholders
       = Ok chunks eight_placeholders
       /\ (8 <= length chunks <= 15)%nat
       /\ Forall (fun c => (0 < length c <= size eight_paths / 8)%nat) chunks
       /\ concat chunks = elements eight_paths
       /\ NoDup (concat chunks)
       /\ (forall dds, dds ∈ eight_paths <-> dds ∈ concat chunks)
       /\ prefetch (Sample.steady 3) 4 eight_paths false eight_placeholders
          = run_workers (Sample.steady 3) 4 false chunks eight_placeholders.
Proof.
  split; [vm_compute; lia|].
  apply (prefetch_partition (Sample.steady 3) 4 eight_paths false
           eight_placeholders).
  vm_compute; lia.
Defined.

Lemma prefetch_short_raises'
    (go : GetOrtho) (fuel : nat) (dds_full_paths : gset string)
    (extra_fast : bool) (s : State) :
  (size dds_full_paths < 8)%nat ->
  prefetch go fuel dds_full_paths extra_fast s
  = Raise (ValueError "slice step cannot be zero") s.
Proof.
  intros H. unfold prefetch, bind.
  now rewrite chunked_list_short.
Qed.

(** X8.  With fewer than eight distinct paths, none included, the chunk
    size is zero and the prefetch raises [ValueError] out of the slice with
    step zero: no worker is started and the state is left untouched. *)
Theorem prefetch_short_raises
    (go : GetOrtho) (fuel : nat) (dds_full_paths : gset string)
    (extra_fast : bool) (s : State) :
  (size dds_full_paths < 8)%nat ->
  prefetch go fuel dds_full_paths extra_fast s
  = Raise (ValueError "slice step cannot be zero") s.
Proof.
  exact (prefetch_short_raises' go fuel dds_full_paths extra_fast s).
Qed.

Lemma prefetch_short_raises_witness :
  let paths : gset string :=
    {[ "/t/1_1_BI16.dds"; "/t/2_1_BI16.dds"; "/t/3_1_BI16.dds" ]} in
  (size paths < 8)%nat
  /\ prefetch (Sample.steady 3) 4 paths true Sample.init
     = Raise (ValueError "slice step cannot be zero") Sample.init.
Proof.
  intros paths. split; [vm_compute; lia|].
  apply (prefetch_short_raises (Sample.steady 3) 4 paths true Sample.init).
  vm_compute; lia.
Defined.

(** ** Errors of the DSF parser *)

(** X9.  Opening a scenery file that matches the DSF pattern, exists, and
    holds no terrain reference raises [ValueError] out of [DSF.open]: the
    texture set is empty, the chunk size zero.  The file itself is never
    opened and nothing is recorded. *)
Theorem open_dsf_without_textures
    (go : GetOrtho) (root : string) (fuel : nat) (path : string) (s : State)
    (groups : list string) (content : string) :
  Re.match_ Re.dsf_re path = Some groups ->
  files (ext s) !! _full_path root path = Some content ->
  Re.findall Re.ter_re content = [] ->
  open go root fuel path s
  = Raise (ValueError "slice step cannot be zero") s.
Proof.
  intros Hm Hf Ht. unfold open. unfold bind at 1. unfold get.
  unfold bind at 1. rewrite Hm.
  unfold bind at 1. unfold DSF_open. unfold bind at 1.
  unfold read_file. rewrite Hf. rewrite Ht. cbn [collect_dds].
  unfold bind at 1. unfold ret.
  rewrite prefetch_short_raises'; [reflexivity|].
  rewrite size_empty. lia.
Qed.

Lemma open_dsf_without_textures_witness :
  let path := "/Earth nav data/+50-010/+51-009.dsf" in
  let content := "PROPERTY sim/west 9 sim/south 51" in
  let s := Sample.fresh
             (Sample.world
                {["/s/Earth nav data/+50-010/+51-009.dsf" := content]} ∅) in
  Re.match_ Re.dsf_re path = Some []
  /\ files (ext s) !! _full_path "/s" path = Some content
  /\ Re.findall Re.ter_re content = []
  /\ open (Sample.steady 3) "/s" 4 path s
     = Raise (ValueError "slice step cannot be zero") s.
Proof.
  intros path content s.
  split; [vm_compute; reflexivity|].
  split; [vm_compute; reflexivity|].
  split; [vm_compute; reflexivity|].
  apply (open_dsf_without_textures (Sample.steady 3) "/s" 4 path s []
           content); vm_compute; reflexivity.
Defined.

(** X10.  [DSF.open] raises [FileNotFoundError] when the scenery file is
    missing, and when the first terrain file it references, looked up two
    directories above the scenery file, is missing; in both cases before
    any tile is asked for: the state is the one it started in. *)
Theorem DSF_open_missing_file
    (go : GetOrtho) (fuel : nat) (path : string) (extra_fast : bool)
    (s : State) :
  (files (ext s) !! path = None ->
   DSF_open go fuel path extra_fast s = Raise (FileNotFoundError path) s)
  /\
  (forall content t rest,
     files (ext s) !! path = Some content ->
     Re.findall Re.ter_re content = t :: rest ->
     let ter_path :=
       Py.join (Py.join (Py.join (Py.dirname path) "..") "..") t in
     files (ext s) !! ter_path = None ->
     DSF_open go fuel path extra_fast s
     = Raise (FileNotFoundError ter_path) s).
Proof.
  split.
  - intros H. unfold DSF_open, bind, read_file. now rewrite H.
  - intros content t rest Hf Ht ter_path Hn.
    unfold DSF_open. unfold bind at 1. unfold read_file. rewrite Hf, Ht.
    cbn [collect_dds]. unfold bind. unfold read_file.
    fold ter_path. now rewrite Hn.
Qed.

Lemma DSF_open_missing_file_witness :
  (files (ext Sample.init) !! "/s/nav/+50-010/+51-009.dsf" = None
   /\ DSF_open (Sample.steady 3) 4 "/s/nav/+50-010/+51-009.dsf" false
        Sample.init
      = Raise (FileNotFoundError "/s/nav/+50-010/+51-009.dsf") Sample.init)
  /\
  (let content := "x terrain/1_1_BI16.ter y" in
   let s := Sample.fresh
              (Sample.world {["/s/nav/+50-010/+51-009.dsf" := content]} ∅) in
   let ter_path := "/s/nav/+50-010/../../terrain/1_1_BI16.ter" in
   Re.findall Re.ter_re content = ["terrain/1_1_BI16.ter"]
   /\ files (ext s) !! ter_path = None
   /\ DSF_open (Sample.steady 3) 4 "/s/nav/+50-010/+51-009.dsf" false s
      = Raise (FileNotFoundError ter_path) s).
Proof.
  split.
  - split; [vm_compute; reflexivity|].
    apply (proj1 (DSF_open_missing_file (Sample.steady 3) 4
                    "/s/nav/+50-010/+51-009.dsf" false Sample.init)).
    vm_compute; reflexivity.
  - intros content s ter_path.
    split; [vm_compute; reflexivity|].
    split; [vm_compute; reflexivity|].
    apply (proj2 (DSF_open_missing_file (Sample.steady 3) 4
                    "/s/nav/+50-010/+51-009.dsf" false s)
             content "terrain/1_1_BI16.ter" []);
      vm_compute; reflexivity.
Defined.

(** ** What [get_dds] leaves alone *)

Lemma get_one_dds_skips
    (go : GetOrtho) (fuel : nat) (extra_fast : bool) (dds : string)
    (s : State) :
  Re.match_ Re.dds_re dds = None
  \/ (exists content, files (ext s) !! dds = Some content /\ content <> "") ->
  get_one_dds go fuel extra_fast dds s = Ok tt s.
Proof.
  intros H. unfold get_one_dds.
  destruct (Re.match_ Re.dds_re dds)
    as [[|row [|col [|maptype [|zoom [|x gs]]]]]|] eqn:Em; try reflexivity.
  destruct H as [H|(content & Hf & Hne)]; [discriminate|].
  unfold bind at 1. unfold get. unfold bind at 1. unfold exists_.
  rewrite Hf, bool_decide_eq_true_2 by eauto.
  unfold ret at 1. unfold bind at 1. unfold getsize, bind, read_file.
  rewrite Hf. cbn [ret].
  destruct content; [congruence | reflexivity].
Qed.

(** X11.  [get_dds] does nothing at all for a path that does not match
    the tile pattern and for one whose file is there and not empty: on a
    list made of such paths only it calls nothing, creates nothing and
    returns with the state it was given. *)
Theorem get_dds_skips
    (go : GetOrtho) (fuel : nat) (dds_files : list string)
    (extra_fast : bool) (s : State) :
  (forall dds, In dds dds_files ->
     Re.match_ Re.dds_re dds = None
     \/ (exists content,
           files (ext s) !! dds = Some content /\ content <> "")) ->
  get_dds go fuel dds_files extra_fast s = Ok tt s.
Proof.
  induction dds_files as [|dds rest IH]; intros H; [reflexivity|].
  cbn [get_dds]. unfold bind.
  rewrite get_one_dds_skips by (apply H; now left).
  apply IH. intros d Hd. apply H. now right.
Qed.

Lemma get_dds_skips_witness :
  let s := Sample.fresh
             (Sample.world {["/t/1_1_BI16.dds" := "DDS data"]} ∅) in
  (forall dds, In dds ["/t/readme.txt"; "/t/1_1_BI16.dds"] ->
     Re.match_ Re.dds_re dds = None
     \/ (exists content,
           files (ext s) !! dds = Some content /\ content <> ""))
  /\ get_dds (Sample.steady 3) 4 ["/t/readme.txt"; "/t/1_1_BI16.dds"] true s
     = Ok tt s.
Proof.
  intros s.
  assert (H : forall dds, In dds ["/t/readme.txt"; "/t/1_1_BI16.dds"] ->
            Re.match_ Re.dds_re dds = None
            \/ (exists content,
                  files (ext s) !! dds = Some content /\ content <> "")).
  { intros dds [<-|[<-|[]]].
    - left. vm_compute; reflexivity.
    - right. exists "DDS data". split; [vm_compute; reflexivity|discriminate]. }
  split; [exact H|].
  apply (get_dds_skips (Sample.steady 3) 4 _ true s H).
Defined.

(** ** The filesystem callbacks *)

Lemma parse_dds_no_match (path : string) :
  Re.match_ Re.dds_re path = None -> parse_dds path = None.
Proof. intros H. unfold parse_dds. now rewrite H. Qed.

(** X12.  A path that matches neither the tile pattern nor the scenery
    pattern is passed through: [getattr] is the [lstat] and [open] the
    [os.open] of the file under the root, the cache is not consulted and
    the path map not written.  For [getattr] it is enough that the tile
    pattern does not match. *)
Theorem other_paths_pass_through
    (go : GetOrtho)
    (deg2num : Py.float -> Py.float -> Z -> computed (Z * Z))
    (root : string)
    (fuel : nat) (path : string) (s : State) :
  Re.match_ Re.dds_re path = None ->
  getattr go deg2num root fuel path s = lstat (_full_path root path) s
  /\ (Re.match_ Re.dsf_re path = None ->
      open go root fuel path s = os_open (_full_path root path) s).
Proof.
  intros Hd. apply parse_dds_no_match in Hd as Hp. split.
  - unfold getattr, bind. rewrite Hp. reflexivity.
  - intros Hs. unfold open. unfold bind at 1. unfold get.
    unfold bind at 1. rewrite Hs. unfold ret at 1.
    unfold bind at 1. rewrite Hp. reflexivity.
Qed.

Lemma other_paths_pass_through_witness :
  let s := Sample.fresh (Sample.world {["/s/apt.dat" := "I 1100"]} ∅) in
  Re.match_ Re.dds_re "/apt.dat" = None
  /\ getattr (Sample.steady 3) (fun _ _ _ => Value (0, 0)) "/s" 4 "/apt.dat" s
     = lstat (_full_path "/s" "/apt.dat") s
  /\ (Re.match_ Re.dsf_re "/apt.dat" = None ->
      open (Sample.steady 3) "/s" 4 "/apt.dat" s
      = os_open (_full_path "/s" "/apt.dat") s).
Proof.
  intros s. split; [vm_compute; reflexivity|].
  apply (other_paths_pass_through (Sample.steady 3) (fun _ _ _ => Value (0, 0))
           "/s" 4 "/apt.dat" s).
  vm_compute; reflexivity.
Defined.

(** X13.  [_full_path] drops one leading slash only.  A path that then
    no longer starts with a slash is put under the root, with one slash
    between unless the root is empty or ends with one; a path that began
    with two slashes is returned without its first slash, outside the
    root. *)
Theorem full_path_under_root (root p : string) :
  (Py.startswith_slash p = false ->
   _full_path root p = Py.join root p
   /\ _full_path root (String "/" p) = Py.join root p
   /\ Py.join root p
      = root
        ++ (if (String.length root =? 0)%nat || Py.endswith_slash root
            then "" else "/") ++ p)
  /\ _full_path root (String "/" (String "/" p)) = String "/" p.
Proof.
  split; [|reflexivity].
  intros H. split; [|split].
  - unfold _full_path. destruct p as [|c p]; [reflexivity|].
    cbn in H. now rewrite H.
  - reflexivity.
  - unfold Py.join. rewrite H.
    now destruct ((String.length root =? 0)%nat || Py.endswith_slash root).
Qed.

Lemma full_path_under_root_witness :
  (Py.startswith_slash "a/b.dds" = false ->
   _full_path "/s" "a/b.dds" = Py.join "/s" "a/b.dds"
   /\ _full_path "/s" (String "/" "a/b.dds") = Py.join "/s" "a/b.dds"
   /\ Py.join "/s" "a/b.dds"
      = "/s"
        ++ (if (String.length "/s" =? 0)%nat || Py.endswith_slash "/s"
            then "" else "/") ++ "a/b.dds")
  /\ _full_path "/s" (String "/" (String "/" "etc/passwd")) = "/etc/passwd".
Proof.
  split.
  - exact (proj1 (full_path_under_root "/s" "a/b.dds")).
  - exact (proj2 (full_path_under_root "/s" "etc/passwd")).
Defined.

(** ** The read-path policy *)







Lemma cache_path_nonempty (row col : Py.value) (map_type : string) (z : Z) :
  (String.length (cache_path row col map_type z) =? 0)%nat = false.
Proof.
  unfold cache_path, Py.join.
  destruct (Py.startswith_slash _) eqn:E.
  - destruct (Py.fmt row ++ _); [discriminate | reflexivity].
  - reflexivity.
Qed.

(** The level of a path returned by [get_deadline]. *)
Lemma get_deadline_level
    (go : GetOrtho) (fuel : nat) (row col : Z) (map_type : string)
    (zoom quick_zoom min_zoom : Z) (deadline : Q) (priority : Z)
    (s : State) (f : string) (s' : State) (lo : Z) :
  get_deadline go fuel (Py.Int row) (Py.Int col) map_type zoom quick_zoom
    min_zoom deadline priority s = Ok f s' ->
  lo <= zoom ->
  quick_zoom = 0 \/ lo <= quick_zoom <= zoom ->
  lo <= default_min_zoom zoom min_zoom <= zoom ->
  exists z,
    lo <= z <= zoom /\ f = cache_path (Py.Int row) (Py.Int col) map_type z.
Proof.
  intros H Hlo Hq Hm. unfold get_deadline in H.
  set (target := if (quick_zoom =? 0)%Z
                 then cache_path (Py.Int row) (Py.Int col) map_type zoom
                 else cache_path (Py.Int row) (Py.Int col) map_type
                        quick_zoom) in *.
  assert (Ht : exists z, lo <= z <= zoom
                 /\ target = cache_path (Py.Int row) (Py.Int col) map_type z).
  { subst target. destruct (quick_zoom =? 0)%Z eqn:E.
    - exists zoom. split; [lia | reflexivity].
    - apply Z.eqb_neq in E. exists quick_zoom. split; [lia | reflexivity]. }
  apply bind_ok in H. destruct H as (s0 & s1 & H0 & H).
  unfold get in H0. inversion H0; subst s0 s1. clear H0.
  destruct (exists_ target (ext s)).
  { unfold ret in H. inversion H; subst. exact Ht. }
  apply bind_ok in H. destruct H as (c & s1 & _ & H).
  apply bind_ok in H. destruct H as (r & s2 & _ & H).
  apply bind_ok in H. destruct H as (u & s3 & _ & H).
  apply bind_ok in H. destruct H as (t0 & s4 & _ & H).
  apply bind_ok in H. destruct H as (beat & s5 & _ & H).
  destruct beat.
  { unfold ret in H. inversion H; subst. exact Ht. }
  apply bind_ok in H. destruct H as (r' & s6 & Hr & H).
  apply bind_ok in H. destruct H as (c' & s7 & Hc & H).
  unfold int_ in Hr, Hc. cbn in Hr, Hc. inversion Hr; inversion Hc; subst.
  apply (get_quick_level _ _ _ _ _ _ _ _ _ _ _ lo H).
  now rewrite default_min_zoom_twice.
Qed.

(** The level of a path returned by [_fetch_dds]. *)
Lemma fetch_dds_cache_path
    (go : GetOrtho)
    (deg2num : Py.float -> Py.float -> Z -> computed (Z * Z))
    (fuel : nat)
    (row col : Z) (maptype : string) (zoom : Z) (s : State) (f : string)
    (s' : State) :
  _fetch_dds go deg2num fuel row col maptype zoom s = Ok f s' ->
  exists z,
    zoom - 3 <= z <= zoom
    /\ f = cache_path (Py.Int row) (Py.Int col) maptype z.
Proof.
  intros H. unfold _fetch_dds in H.
  apply bind_ok in H. destruct H as (s0 & s1 & H0 & H).
  unfold get in H0. inversion H0; subst s0 s1. clear H0.
  assert (Hquick : forall g t,
             get_quick go fuel (Py.Int row) (Py.Int col) maptype zoom 0 1 s
             = Ok g t ->
             exists z, zoom - 3 <= z <= zoom
               /\ g = cache_path (Py.Int row) (Py.Int col) maptype z).
  { intros g t Hg. apply (get_quick_level _ _ _ _ _ _ _ _ _ _ _ _ Hg).
    unfold default_min_zoom. cbn. lia. }
  assert (Hdead : forall qz d p g t,
             qz = 0 \/ zoom - 3 <= qz <= zoom ->
             get_deadline go fuel (Py.Int row) (Py.Int col) maptype zoom qz 0
               d p s = Ok g t ->
             exists z, zoom - 3 <= z <= zoom
               /\ g = cache_path (Py.Int row) (Py.Int col) maptype z).
  { intros qz d p g t Hq Hg.
    apply (get_deadline_level _ _ _ _ _ _ _ _ _ _ _ _ _ (zoom - 3) Hg);
      [lia | exact Hq | unfold default_min_zoom; cbn; lia]. }
  destruct (negb (connected (ff (ext s)))); [eauto|].
  destruct (deg2num _ _ zoom) as [[x y]|x]; [|discriminate].
  cbv beta iota zeta in H.
  repeat match type of H with
         | (if ?b then _ else _) _ = _ => destruct b
         end;
    first [ eapply Hquick; exact H
          | eapply Hdead; [|exact H]; lia ].
Qed.

(** X15.  Whatever the flight state and whichever strategy the policy
    picks, a path returned by [_fetch_dds] is the cache path of the tile
    asked for, with its row, col and maptype, at a level between
    [zoom - 3] and [zoom]. *)
Theorem fetch_dds_level
    (go : GetOrtho)
    (deg2num : Py.float -> Py.float -> Z -> computed (Z * Z))
    (fuel : nat)
    (row col : Z) (maptype : string) (zoom : Z) (s : State) (f : string)
    (s' : State) :
  _fetch_dds go deg2num fuel row col maptype zoom s = Ok f s' ->
  exists z,
    zoom - 3 <= z <= zoom
    /\ f = cache_path (Py.Int row) (Py.Int col) maptype z.
Proof.
  exact (fetch_dds_cache_path go deg2num fuel row col maptype zoom s f s').
Qed.

Lemma fetch_dds_level_witness :
  let f := ".cache/21728_34432_BI_13.dds" in
  exists s',
    _fetch_dds (Sample.steady 3) (fun _ _ _ => Value (0, 0)) 4 21728 34432 "BI" 16
      Sample.init = Ok f s'
    /\ exists z,
         16 - 3 <= z <= 16
         /\ f = cache_path (Py.Int 21728) (Py.Int 34432) "BI" z.
Proof.
  intros f. eexists. split; [vm_compute; reflexivity|].
  eapply (fetch_dds_level (Sample.steady 3) (fun _ _ _ => Value (0, 0)) 4 21728
            34432 "BI" 16 Sample.init f).
  vm_compute; reflexivity.
Defined.

Lemma getsize_state (path : string) (s : State) (n : nat) (s' : State) :
  getsize path s = Ok n s' -> s' = s.
Proof.
  unfold getsize, bind, read_file.
  destruct (files (ext s) !! path); [|discriminate].
  unfold ret. intros H. now inversion H.
Qed.

Lemma open_uses_path_dict
    (go : GetOrtho) (root : string) (fuel : nat) (path : string)
    (row col : Z) (maptype : string) (zoom : Z) (f : string) (s : State) :
  Re.match_ Re.dsf_re path = None ->
  parse_dds path = Some (row, col, maptype, zoom) ->
  path_dict s !! path = Some f ->
  (String.length f =? 0)%nat = false ->
  open go root fuel path s = os_open f s.
Proof.
  intros Hs Hp Hd Hn. unfold open.
  unfold bind at 1. unfold get at 1.
  unfold bind at 1. rewrite Hs. unfold ret at 1.
  unfold bind at 1. rewrite Hp.
  unfold bind at 1. unfold get at 1.
  unfold bind at 1. rewrite Hd, Hn. unfold ret at 1.
  unfold bind at 1. unfold ret at 1.
  unfold bind. destruct (os_open f s); reflexivity.
Qed.

(** X16.  After a [getattr] of a tile path other than a [ZL] one has
    returned, the path map holds for that path the cache path the policy
    resolved, a tile of the same row, col and maptype at a level between
    [zoom - 3] and [zoom]; and as long as the entry is there, [open] on the
    path (not also a scenery path) is the [os.open] of that very file: the
    cache is not consulted a second time. *)
Theorem open_after_getattr
    (go : GetOrtho)
    (deg2num : Py.float -> Py.float -> Z -> computed (Z * Z))
    (root : string)
    (fuel : nat) (path : string) (row col : Z) (maptype : string)
    (zoom : Z) (s : State) (size : nat) (s1 : State) :
  parse_dds path = Some (row, col, maptype, zoom) ->
  maptype <> "ZL" ->
  getattr go deg2num root fuel path s = Ok size s1 ->
  exists f z,
    zoom - 3 <= z <= zoom
    /\ f = cache_path (Py.Int row) (Py.Int col) maptype z
    /\ path_dict s1 !! path = Some f
    /\ (Re.match_ Re.dsf_re path = None ->
        forall fuel' s2,
          path_dict s2 !! path = Some f ->
          open go root fuel' path s2 = os_open f s2).
Proof.
  intros Hp Hz H. unfold getattr in H. rewrite Hp in H.
  apply String.eqb_neq in Hz. rewrite Hz in H.
  apply bind_ok in H. destruct H as (o & s2 & H1 & H).
  apply bind_ok in H1. destruct H1 as (f & s3 & Hf & H1).
  apply bind_ok in H1. destruct H1 as (u & s4 & Hm & H1).
  unfold ret in H1. inversion H1; subst o s4. clear H1.
  unfold modify in Hm. inversion Hm; subst s2. clear Hm.
  destruct (fetch_dds_cache_path _ _ _ _ _ _ _ _ _ _ Hf) as (z & Hzr & Hfz).
  assert (Hn : (String.length f =? 0)%nat = false).
  { rewrite Hfz. apply cache_path_nonempty. }
  rewrite Hn in H. unfold lstat in H.
  apply bind_ok in H. destruct H as (u' & s5 & Hl & H).
  unfold log_event, modify in Hl. inversion Hl; subst s5. clear Hl.
  apply getsize_state in H. subst s1.
  exists f, z. split; [exact Hzr|]. split; [exact Hfz|].
  split.
  - cbn [path_dict emit set_path_dict]. apply lookup_insert_eq.
  - intros Hs fuel' s2 Hd.
    now apply (open_uses_path_dict go root fuel' path row col maptype zoom).
Qed.

Lemma open_after_getattr_witness :
  let path := "/textures/21728_34432_BI16.dds" in
  let s := Sample.init in
  parse_dds path = Some (21728, 34432, "BI", 16)
  /\ "BI" <> "ZL"
  /\ exists size s1,
       getattr (Sample.steady 3) (fun _ _ _ => Value (0, 0)) "/s" 4 path s
       = Ok size s1
       /\ exists f z,
            16 - 3 <= z <= 16
            /\ f = cache_path (Py.Int 21728) (Py.Int 34432) "BI" z
            /\ path_dict s1 !! path = Some f
            /\ (Re.match_ Re.dsf_re path = None ->
                forall fuel' s2,
                  path_dict s2 !! path = Some f ->
                  open (Sample.steady 3) "/s" fuel' path s2 = os_open f s2).
Proof.
  intros path s.
  split; [vm_compute; reflexivity|]. split; [discriminate|].
  eexists. eexists. split; [vm_compute; reflexivity|].
  eapply (open_after_getattr (Sample.steady 3) (fun _ _ _ => Value (0, 0)) "/s" 4
            path 21728 34432 "BI" 16 s);
    [vm_compute; reflexivity | discriminate | vm_compute; reflexivity].
Defined.

(** ** The flight follower *)

(** X17.  A datagram from which one of the readings 0, 1, 3, 4 or 6 is
    missing, or empty, ends the follower thread.  It leaves [connected]
    set and every one of [lat], [lon], [alt], [hdg] and [spd] as it was,
    also when the other readings were there: the five fields are stored
    together or not at all. *)
Theorem follower_bad_packet
    (values : gmap Z (list Py.float)) (f : FlightFollower) (i : Z) :
  In i [0; 1; 3; 4; 6] ->
  first_value values i = None ->
  exists f',
    follower_turn (Packet values) f = Died f'
    /\ connected f' = true
    /\ lat f' = lat f /\ lon f' = lon f /\ alt f' = alt f
    /\ hdg f' = hdg f /\ spd f' = spd f.
Proof.
  intros Hi Hn.
  exists {| connected := true; lat := lat f; lon := lon f; alt := alt f;
            hdg := hdg f; spd := spd f |}.
  split; [|repeat split].
  cbn [follower_turn].
  destruct Hi as [<-|[<-|[<-|[<-|[<-|[]]]]]]; rewrite Hn;
    repeat match goal with
           | |- context [match first_value ?v ?k with _ => _ end] =>
               destruct (first_value v k)
           end; reflexivity.
Qed.

Lemma follower_bad_packet_witness :
  let values : gmap Z (list Py.float) :=
    {[ 0 := [Py.Num 50]; 1 := [Py.Num 10]; 3 := [Py.Num 300]; 4 := [];
       6 := [Py.Num 120] ]} in
  In 4 [0; 1; 3; 4; 6]
  /\ first_value values 4 = None
  /\ exists f',
       follower_turn (Packet values) Sample.no_flight = Died f'
       /\ connected f' = true
       /\ lat f' = lat Sample.no_flight /\ lon f' = lon Sample.no_flight
       /\ alt f' = alt Sample.no_flight /\ hdg f' = hdg Sample.no_flight
       /\ spd f' = spd Sample.no_flight.
Proof.
  intros values.
  split; [cbn; tauto|]. split; [vm_compute; reflexivity|].
  apply (follower_bad_packet values Sample.no_flight 4);
    [cbn; tauto | vm_compute; reflexivity].
Defined.

(** ** Parsing a tile name *)

Section Matcher.

Import Re.

(** A greedy repetition whose longest run lets the rest match takes the
    longest run. *)
Lemma greedy_longest (p : ascii -> bool)
    (k : list ascii -> list ascii -> option result) (u v : list ascii)
    (R : result) :
  forall acc,
    forallb p u = true ->
    match v with [] => True | c :: _ => p c = false end ->
    k (rev u ++ acc)%list v = Some R ->
    greedy p k acc (u ++ v)%list = Some R.
Proof.
  induction u as [|c u IH]; intros acc Hu Hv Hk.
  - cbn [app rev] in *. destruct v as [|d v]; cbn [greedy]; [exact Hk|].
    now rewrite Hv.
  - cbn [forallb] in Hu. apply andb_true_iff in Hu. destruct Hu as [Hc Hu].
    cbn [app greedy]. rewrite Hc.
    rewrite (IH (c :: acc)); [reflexivity | exact Hu | exact Hv |].
    cbn [rev] in Hk. now rewrite <- app_assoc in Hk.
Qed.

(** A greedy repetition gives back what it took as long as the rest does
    not match. *)
Lemma greedy_gives_back (p : ascii -> bool)
    (k : list ascii -> list ascii -> option result) (v : list ascii) :
  forall acc,
    (forall acc' w t, w <> [] -> v = (w ++ t)%list -> k acc' t = None) ->
    greedy p k acc v = k acc v.
Proof.
  induction v as [|c v IH]; intros acc Hf; [reflexivity|].
  cbn [greedy]. destruct (p c); [|reflexivity].
  rewrite IH.
  - now rewrite (Hf (c :: acc) [c] v).
  - intros acc' w t Hw Hv. apply (Hf acc' (c :: w) t); [discriminate|].
    cbn. now rewrite Hv.
Qed.

Lemma greedy_backtrack (p : ascii -> bool)
    (k : list ascii -> list ascii -> option result) (u v : list ascii)
    (R : result) :
  forall acc,
    forallb p u = true ->
    (forall acc' w t, w <> [] -> v = (w ++ t)%list -> k acc' t = None) ->
    k (rev u ++ acc)%list v = Some R ->
    greedy p k acc (u ++ v)%list = Some R.
Proof.
  induction u as [|c u IH]; intros acc Hu Hf Hk.
  - cbn [app rev] in *. now rewrite greedy_gives_back.
  - cbn [forallb] in Hu. apply andb_true_iff in Hu. destruct Hu as [Hc Hu].
    cbn [app greedy]. rewrite Hc.
    rewrite (IH (c :: acc)); [reflexivity | exact Hu | exact Hf |].
    cbn [rev] in Hk. now rewrite <- app_assoc in Hk.
Qed.

Lemma run_one (a : atom) (r : list atom) (c : ascii) (s : list ascii)
    (gs : list string) (tl : list ascii) :
  qt a = One -> cls a c = true -> run r s = Some (gs, tl) ->
  run (a :: r) (c :: s) = Some (captured a [c] gs, tl).
Proof.
  intros Hq Hc Hr. cbn [run]. rewrite Hq, Hc, Hr. reflexivity.
Qed.

Lemma run_plus (a : atom) (r : list atom) (c : ascii) (u v : list ascii)
    (gs : list string) (tl : list ascii) :
  qt a = Plus -> cls a c = true -> forallb (cls a) u = true ->
  match v with [] => True | d :: _ => cls a d = false end ->
  run r v = Some (gs, tl) ->
  run (a :: r) (c :: u ++ v)%list = Some (captured a (c :: u) gs, tl).
Proof.
  intros Hq Hc Hu Hv Hr. cbn [run]. rewrite Hq, Hc.
  apply greedy_longest; [exact Hu | exact Hv |].
  rewrite Hr. unfold captured. rewrite rev_app_distr, rev_involutive.
  reflexivity.
Qed.

Lemma run_star (a : atom) (r : list atom) (u v : list ascii)
    (gs : list string) (tl : list ascii) :
  qt a = Star -> forallb (cls a) u = true ->
  match v with [] => True | d :: _ => cls a d = false end ->
  run r v = Some (gs, tl) ->
  run (a :: r) (u ++ v)%list = Some (captured a u gs, tl).
Proof.
  intros Hq Hu Hv Hr. cbn [run]. rewrite Hq.
  apply greedy_longest; [exact Hu | exact Hv |].
  rewrite Hr. unfold captured. rewrite app_nil_r, rev_involutive.
  reflexivity.
Qed.

Lemma run_star_backtrack (a : atom) (r : list atom) (u v : list ascii)
    (gs : list string) (tl : list ascii) :
  qt a = Star -> grp a = false -> forallb (cls a) u = true ->
  (forall w t, w <> [] -> v = (w ++ t)%list -> run r t = None) ->
  run r v = Some (gs, tl) ->
  run (a :: r) (u ++ v)%list = Some (gs, tl).
Proof.
  intros Hq Hg Hu Hf Hr. cbn [run]. rewrite Hq.
  apply greedy_backtrack; [exact Hu | |].
  - intros acc' w t Hw Hv. now rewrite (Hf w t Hw Hv).
  - rewrite Hr, Hg. reflexivity.
Qed.

(** An atom for one literal character fails where that character is not
    next. *)
Lemma run_chr_fails (x : ascii) (r : list atom) (t : list ascii) :
  match t with [] => True | c :: _ => Ascii.eqb x c = false end ->
  run (chr x :: r) t = None.
Proof.
  intros H. cbn [run chr qt cls]. destruct t as [|c t]; [reflexivity|].
  unfold lit. now rewrite H.
Qed.

End Matcher.

Lemma digit_not_slash (ch : ascii) :
  Re.digit ch = true -> Py.is_slash ch = false.
Proof.
  destruct ch as [[] [] [] [] [] [] [] []]; vm_compute; congruence.
Qed.

Lemma separator_plain (ch : ascii) :
  Re.oneof "-" "_" ch = true ->
  Re.digit ch = false /\ Py.is_slash ch = false.
Proof.
  destruct ch as [[] [] [] [] [] [] [] []]; vm_compute; intros H;
    (discriminate || (split; reflexivity)).
Qed.

Lemma digits_value_total (cs : list ascii) :
  forall acc, forallb Re.digit cs = true ->
              exists n, Py.digits_value acc cs = Some n.
Proof.
  induction cs as [|c cs IH]; intros acc H; cbn [Py.digits_value].
  - eauto.
  - cbn [forallb] in H. apply andb_true_iff in H. destruct H as [Hc Hcs].
    unfold Re.digit in Hc. rewrite Hc. now apply IH.
Qed.

Lemma int_of_digits (cs : list ascii) :
  cs <> [] -> forallb Re.digit cs = true ->
  exists n, Py.int_of_string (string_of_list_ascii cs) = Some n.
Proof.
  intros Hne H. unfold Py.int_of_string.
  rewrite list_ascii_of_string_of_list_ascii.
  destruct cs as [|c cs]; [congruence|]. now apply digits_value_total.
Qed.

(** X18.  The tile pattern reads a scenery tile name back into its parts.
    For a path made of a directory part without line break, a slash, a
    row and a col of decimal digits, a maptype of characters that are
    neither digits nor slashes, a zoom of decimal digits, each of the first
    two followed by a dash or an underscore, and [.dds] (or any other plain
    character for the dot), the groups are exactly the row, the col, the
    maptype and the zoom; so [getattr], [open] and [get_dds] see the key
    that the name spells, with the last slash as the start of the name. *)
Theorem tile_name_parses
    (dir r c mt z : list ascii) (sep1 sep2 x : ascii) :
  forallb Re.any dir = true ->
  r <> [] -> forallb Re.digit r = true ->
  c <> [] -> forallb Re.digit c = true ->
  z <> [] -> forallb Re.digit z = true ->
  forallb (fun ch => Re.nondigit ch && negb (Py.is_slash ch)) mt = true ->
  Re.oneof "-" "_" sep1 = true -> Re.oneof "-" "_" sep2 = true ->
  Re.any x = true -> Re.digit x = false -> Py.is_slash x = false ->
  let name := (r ++ sep1 :: c ++ sep2 :: mt ++ z
               ++ x :: list_ascii_of_string "dds")%list in
  let path := string_of_list_ascii (dir ++ "/"%char :: name)%list in
  Re.match_ Re.dds_re path
  = Some [string_of_list_ascii r; string_of_list_ascii c;
          string_of_list_ascii mt; string_of_list_ascii z]
  /\ exists rn cn zn,
       Py.int_of_string (string_of_list_ascii r) = Some rn
       /\ Py.int_of_string (string_of_list_ascii c) = Some cn
       /\ Py.int_of_string (string_of_list_ascii z) = Some zn
       /\ parse_dds path = Some (rn, cn, string_of_list_ascii mt, zn).
Proof.
  intros Hdir Hr0 Hr Hc0 Hc Hz0 Hz Hmt Hs1 Hs2 Hx1 Hx2 Hx3 name path.
  destruct (separator_plain _ Hs1) as [Hs1d Hs1s].
  destruct (separator_plain _ Hs2) as [Hs2d Hs2s].
  assert (Hmt1 : forallb Re.nondigit mt = true).
  { apply forallb_forall. intros ch Hch.
    apply (proj1 (forallb_forall _ _) Hmt) in Hch.
    now apply andb_true_iff in Hch. }
  assert (Hmt2 : Forall (fun ch => Py.is_slash ch = false) mt).
  { apply Forall_forall. intros ch Hch. apply list_elem_of_In in Hch.
    apply (proj1 (forallb_forall _ _) Hmt) in Hch.
    apply andb_true_iff in Hch. destruct Hch as [_ Hch].
    now apply negb_true_iff in Hch. }
  assert (Hdig : forall l, forallb Re.digit l = true ->
                   Forall (fun ch => Py.is_slash ch = false) l).
  { intros l Hl. apply Forall_forall. intros ch Hch.
    apply list_elem_of_In in Hch.
    apply digit_not_slash. exact (proj1 (forallb_forall _ _) Hl ch Hch). }
  assert (Hname : Forall (fun ch => Py.is_slash ch = false) name).
  { subst name.
    repeat first [ apply Forall_app; split | apply Forall_cons; split ];
      auto; repeat constructor. }
  assert (Hm : Re.run Re.dds_re (dir ++ "/"%char :: name)%list
               = Some ([string_of_list_ascii r; string_of_list_ascii c;
                        string_of_list_ascii mt; string_of_list_ascii z],
                       [])).
  { destruct r as [|r1 r]; [congruence|].
    destruct c as [|c1 c]; [congruence|].
    destruct z as [|z1 z]; [congruence|].
    cbn [forallb] in Hr, Hc, Hz.
    apply andb_true_iff in Hr, Hc, Hz.
    destruct Hr as [Hr1 Hr], Hc as [Hc1 Hc], Hz as [Hz1 Hz].
    change Re.dds_re with
      (Re.Atom Re.any Re.Star false :: Re.chr "/"
       :: Re.Atom Re.digit Re.Plus true
       :: Re.Atom (Re.oneof "-" "_") Re.One false
       :: Re.Atom Re.digit Re.Plus true
       :: Re.Atom (Re.oneof "-" "_") Re.One false
       :: Re.Atom Re.nondigit Re.Star true
       :: Re.Atom Re.digit Re.Plus true
       :: Re.Atom Re.any Re.One false
       :: Re.chr "d" :: Re.chr "d" :: Re.chr "s" :: []).
    apply run_star_backtrack; [reflexivity | reflexivity | exact Hdir | |].
    - intros w t Hw Ht. apply run_chr_fails.
      destruct w as [|w1 w]; [congruence|]. cbn [app] in Ht.
      inversion Ht as [[Hw1 Hn]].
      destruct t as [|ch t]; [exact I|].
      rewrite Hn in Hname. apply Forall_app in Hname.
      destruct Hname as [_ Hname]. inversion Hname as [|? ? Hch _]; subst.
      unfold Py.is_slash in Hch. now rewrite Ascii.eqb_sym.
    - subst name. cbn [app].
      apply (run_one (Re.chr "/") _ "/"%char _ _ []);
        [reflexivity | reflexivity |].
      apply (run_plus (Re.Atom Re.digit Re.Plus true) _ r1 r);
        [reflexivity | exact Hr1 | exact Hr | exact Hs1d |].
      apply (run_one (Re.Atom (Re.oneof "-" "_") Re.One false) _ sep1);
        [reflexivity | exact Hs1 |].
      apply (run_plus (Re.Atom Re.digit Re.Plus true) _ c1 c);
        [reflexivity | exact Hc1 | exact Hc | exact Hs2d |].
      apply (run_one (Re.Atom (Re.oneof "-" "_") Re.One false) _ sep2);
        [reflexivity | exact Hs2 |].
      apply (run_star (Re.Atom Re.nondigit Re.Star true) _ mt);
        [reflexivity | exact Hmt1
        | cbn [app Re.cls]; unfold Re.nondigit; now rewrite Hz1 |].
      apply (run_plus (Re.Atom Re.digit Re.Plus true) _ z1 z);
        [reflexivity | exact Hz1 | exact Hz | exact Hx2 |].
      apply (run_one (Re.Atom Re.any Re.One false) _ x _ []);
        [reflexivity | exact Hx1 |].
      reflexivity. }
  assert (Hmatch : Re.match_ Re.dds_re path
                   = Some [string_of_list_ascii r; string_of_list_ascii c;
                           string_of_list_ascii mt; string_of_list_ascii z]).
  { unfold Re.match_, path. rewrite list_ascii_of_string_of_list_ascii.
    now rewrite Hm. }
  split; [exact Hmatch|].
  destruct (int_of_digits r Hr0 Hr) as (rn & Hrn).
  destruct (int_of_digits c Hc0 Hc) as (cn & Hcn).
  destruct (int_of_digits z Hz0 Hz) as (zn & Hzn).
  exists rn, cn, zn. repeat split; try assumption.
  unfold parse_dds. now rewrite Hmatch, Hrn, Hcn, Hzn.
Qed.

Lemma tile_name_parses_witness :
  let chars := list_ascii_of_string in
  Re.match_ Re.dds_re "/textures/21728_34432_BI16.dds"
  = Some ["21728"; "34432"; "BI"; "16"]
  /\ exists rn cn zn,
       Py.int_of_string "21728" = Some rn
       /\ Py.int_of_string "34432" = Some cn
       /\ Py.int_of_string "16" = Some zn
       /\ parse_dds "/textures/21728_34432_BI16.dds"
          = Some (rn, cn, "BI", zn).
Proof.
  intros chars.
  apply (tile_name_parses (chars "/textures") (chars "21728") (chars "34432")
           (chars "BI") (chars "16") "_" "_" ".");
    first [ reflexivity | discriminate ].
Defined.
